(** * Cloud diet analysis: the ingestion pipeline and the remote fetch job

    A shallow embedding of [data_analysis.py] (load, clean, resolve columns,
    aggregate, rank, derive ratios) and of [lambda_function.py] (ensure the
    container, download the blob, aggregate, dump JSON).

    Conventions of the embedding:
    - a pandas [float64]/[int64] value is an exact rational ([Qc], the
      canonical rationals, so that equal numbers are equal terms); rounding,
      overflow and infinities of binary floating point are not represented,
      and no property below rests on an identity that only exact arithmetic
      has (module [F64] shows the mean in binary64 where that matters);
    - a missing value ([NaN], [pd.NA]) is [None];
    - a [DataFrame] is the ordered list of its named columns, each column
      carrying its dtype (numeric or object);
    - printing, exits and exceptions are explicit: the scripts run in a small
      monad that threads the world (standard output, blob service, files)
      and stops at the first uncaught exception. *)

From Stdlib Require Import String Ascii List Bool Arith ZArith QArith Qcanon.
From Stdlib Require Import Lia Permutation Sorted OrderedTypeEx.
From Stdlib Require PrimFloat.
Import ListNotations.

Open Scope string_scope.

(* ------------------------------------------------------------------ *)
(** ** Numbers *)

Module Num.

Local Open Scope Qc_scope.

(** [len(s)] or [count] as a number of the column's dtype. *)
Definition of_nat (n : nat) : Qc := Q2Qc (inject_Z (Z.of_nat n)).

(** [Series.sum()] over values that are all present. *)
Definition sum (l : list Qc) : Qc := fold_right Qcplus 0 l.

Definition eqb (a b : Qc) : bool :=
  match a ?= b with Eq => true | _ => false end.

Definition leb (a b : Qc) : bool :=
  match a ?= b with Gt => false | _ => true end.

End Num.

(* ------------------------------------------------------------------ *)
(** ** Columns and frames *)

(** A column as [pd.read_csv] types it: numeric dtype ([select_dtypes
    (include=["number"])] keeps it) or object dtype (text). *)
Inductive column : Type :=
| NumCol (xs : list (option Qc))
| ObjCol (xs : list (option string)).

Definition DataFrame : Type := list (string * column).

(** [df.columns.tolist()] *)
Definition columns (df : DataFrame) : list string := map fst df.

(** [df[name]] ([None]: pandas raises [KeyError]). *)
Fixpoint get_col (df : DataFrame) (name : string) : option column :=
  match df with
  | [] => None
  | (n, c) :: rest => if (n =? name)%string then Some c else get_col rest name
  end.

(** [df[name] = c] for a name already among the columns. *)
Fixpoint set_col (df : DataFrame) (name : string) (c : column) : DataFrame :=
  match df with
  | [] => []
  | (n, c0) :: rest =>
      if (n =? name)%string then (n, c) :: rest
      else (n, c0) :: set_col rest name c
  end.

Definition is_numeric (c : column) : bool :=
  match c with NumCol _ => true | ObjCol _ => false end.

(** [df.select_dtypes(include=["number"]).columns.tolist()] *)
Definition numeric_cols (df : DataFrame) : list string :=
  map fst (filter (fun nc => is_numeric (snd nc)) df).

(** The frame as [read_csv] builds it: header names are made distinct. *)
Definition wf_frame (df : DataFrame) : Prop := NoDup (columns df).

(* ------------------------------------------------------------------ *)
(** ** Series operations used by the cleaning step *)

Module Series.

Local Open Scope Qc_scope.

Definition isna {A : Type} (x : option A) : bool :=
  match x with None => true | Some _ => false end.

(** [s.isna().any()] *)
Definition any_na {A : Type} (xs : list (option A)) : bool :=
  existsb isna xs.

(** [s.isna().sum()] *)
Definition count_na {A : Type} (xs : list (option A)) : nat :=
  length (filter isna xs).

(** The present values, in order ([skipna=True]). *)
Fixpoint dropna {A : Type} (xs : list (option A)) : list A :=
  match xs with
  | [] => []
  | None :: rest => dropna rest
  | Some v :: rest => v :: dropna rest
  end.

(** [s.mean()]: the mean of the present values; [NaN] when there is none. *)
Definition mean (xs : list (option Qc)) : option Qc :=
  match dropna xs with
  | [] => None
  | v :: vs => Some (Num.sum (v :: vs) / Num.of_nat (length (v :: vs)))
  end.

(** [s.fillna(v)]; filling with [NaN] changes nothing. *)
Definition fillna (xs : list (option Qc)) (v : option Qc) : list (option Qc) :=
  match v with
  | None => xs
  | Some m => map (fun x => match x with None => Some m | Some _ => x end) xs
  end.

End Series.

(* ------------------------------------------------------------------ *)
(** ** Step 2 of the pipeline: mean imputation of the numeric columns *)

(** Body of the loop [for col in numeric_cols]. *)
Definition clean_step (df : DataFrame) (col : string) : DataFrame :=
  match get_col df col with
  | Some (NumCol xs) =>
      if Series.any_na xs
      then set_col df col (NumCol (Series.fillna xs (Series.mean xs)))
      else df
  | _ => df
  end.

Definition clean (df : DataFrame) : DataFrame :=
  fold_left clean_step (numeric_cols df) df.

(** [df[cols].isna().sum().sum()] *)
Definition missing_total (df : DataFrame) (cols : list string) : nat :=
  fold_right
    (fun col acc =>
       match get_col df col with
       | Some (NumCol xs) => (Series.count_na xs + acc)%nat
       | Some (ObjCol xs) => (Series.count_na xs + acc)%nat
       | None => acc
       end) 0%nat cols.

(* ------------------------------------------------------------------ *)
(** ** Column resolver *)

(** [name in df.columns] *)
Definition has_col (df : DataFrame) (name : string) : bool :=
  existsb (String.eqb name) (columns df).

Fixpoint pick_col (df : DataFrame) (possible_names : list string)
  : option string :=
  match possible_names with
  | [] => None
  | name :: rest => if has_col df name then Some name else pick_col df rest
  end.

Definition diet_names : list string :=
  ["Diet_type"; "Diet Type"; "diet_type"; "diet"].
Definition recipe_names : list string :=
  ["Recipe_name"; "Recipe Name"; "recipe_name"; "Recipe"].
Definition cuisine_names : list string :=
  ["Cuisine_type"; "Cuisine Type"; "cuisine_type"; "Cuisine"].
Definition protein_names : list string :=
  ["Protein(g)"; "Protein"; "protein"].
Definition carbs_names : list string :=
  ["Carbs(g)"; "Carbs"; "carbs"; "Carbohydrates(g)"; "Carbohydrates"].
Definition fat_names : list string :=
  ["Fat(g)"; "Fat"; "fat"].

(** The list [required] of the script, in its order. *)
Definition required (df : DataFrame) : list (option string) :=
  [ pick_col df diet_names; pick_col df recipe_names;
    pick_col df cuisine_names; pick_col df protein_names;
    pick_col df carbs_names; pick_col df fat_names ].

(** [any(x is None for x in required)] *)
Definition any_none (l : list (option string)) : bool :=
  existsb Series.isna l.

(** The six resolved names, once none of them is [None]. *)
Record resolved : Type := mkResolved {
  diet_col : string;
  recipe_col : string;
  cuisine_col : string;
  protein_col : string;
  carbs_col : string;
  fat_col : string
}.

(* ------------------------------------------------------------------ *)
(** ** Exceptions and the script monad *)

Inductive exn : Type :=
| SystemExit (code : Z)
| KeyError (key : string)
| TypeError
| ResourceExistsError
| ResourceNotFoundError
| ServiceRequestError
| OSError.

(** [except Exception] catches every exception of the model but
    [SystemExit], which derives from [BaseException] only. *)
Definition is_Exception (e : exn) : bool :=
  match e with SystemExit _ => false | _ => true end.

Inductive result (A : Type) : Type :=
| Ok (a : A)
| Raise (e : exn).
Arguments Ok {A} a.
Arguments Raise {A} e.

Definition rbind {A B : Type} (r : result A) (k : A -> result B) : result B :=
  match r with Ok a => k a | Raise e => Raise e end.

(** The status the interpreter exits with. *)
Definition exit_status {A : Type} (r : result A) : Z :=
  match r with
  | Ok _ => 0%Z
  | Raise (SystemExit c) => c
  | Raise _ => 1%Z
  end.

(** A script over a world [W]: it returns or raises, and leaves a world. *)
Definition M (W A : Type) : Type := W -> result A * W.

Definition ret {W A : Type} (a : A) : M W A := fun w => (Ok a, w).

Definition raise {W A : Type} (e : exn) : M W A := fun w => (Raise e, w).

Definition bind {W A B : Type} (m : M W A) (k : A -> M W B) : M W B :=
  fun w => match m w with
           | (Ok a, w') => k a w'
           | (Raise e, w') => (Raise e, w')
           end.

Definition lift {W A : Type} (r : result A) : M W A := fun w => (r, w).

(** [try: body  except Exception: handler] *)
Definition try_except {W A : Type} (body : M W A) (handler : M W A) : M W A :=
  fun w => match body w with
           | (Ok a, w') => (Ok a, w')
           | (Raise e, w') =>
               if is_Exception e then handler w' else (Raise e, w')
           end.

Declare Scope script_scope.
Delimit Scope script_scope with script.
Notation "x <- m ;; k" := (bind m (fun x => k))
  (at level 61, m at next level, right associativity) : script_scope.
Notation "m ;;; k" := (bind m (fun _ => k))
  (at level 61, right associativity) : script_scope.
Notation "x <~ r ;; k" := (rbind r (fun x => k))
  (at level 61, r at next level, right associativity) : script_scope.

(* ------------------------------------------------------------------ *)
(** ** Cell values and group keys *)

(** A present cell of either dtype; group keys are such values. *)
Inductive value : Type :=
| VNum (q : Qc)
| VStr (s : string).

(** The order [groupby] sorts its keys by: numbers numerically, text by
    code point.  A column holds one kind only; across kinds numbers are
    put first, which no frame exercises. *)
Definition value_compare (a b : value) : comparison :=
  match a, b with
  | VNum x, VNum y => Qccompare x y
  | VStr s, VStr t => String.compare s t
  | VNum _, VStr _ => Lt
  | VStr _, VNum _ => Gt
  end.

Definition value_eqb (a b : value) : bool :=
  match value_compare a b with Eq => true | _ => false end.

(** The cells of a column, whatever its dtype. *)
Definition cells (c : column) : list (option value) :=
  match c with
  | NumCol xs => map (option_map VNum) xs
  | ObjCol xs => map (option_map VStr) xs
  end.

(** [df[name]] as group keys. *)
Definition key_col (df : DataFrame) (name : string)
  : result (list (option value)) :=
  match get_col df name with
  | Some c => Ok (cells c)
  | None => Raise (KeyError name)
  end.

(** [df[name]] where a numeric reduction follows: [mean] refuses text. *)
Definition num_col (df : DataFrame) (name : string)
  : result (list (option Qc)) :=
  match get_col df name with
  | Some (NumCol xs) => Ok xs
  | Some (ObjCol _) => Raise TypeError
  | None => Raise (KeyError name)
  end.

(* ------------------------------------------------------------------ *)
(** ** groupby *)

Module GroupBy.

(** Insertion of a key into the sorted list of distinct keys. *)
Fixpoint insert_key (k : value) (l : list value) : list value :=
  match l with
  | [] => [k]
  | h :: t =>
      match value_compare k h with
      | Lt => k :: l
      | Eq => l
      | Gt => h :: insert_key k t
      end
  end.

(** The group keys: distinct present keys, ascending ([sort=True],
    [dropna=True]). *)
Definition keys (ks : list (option value)) : list value :=
  fold_right insert_key [] (Series.dropna ks).

(** The members of group [k], in frame order. *)
Fixpoint select {A : Type} (ks : list (option value)) (xs : list A)
  (k : value) : list A :=
  match ks, xs with
  | Some k' :: ks', x :: xs' =>
      if value_eqb k' k then x :: select ks' xs' k else select ks' xs' k
  | None :: ks', _ :: xs' => select ks' xs' k
  | _, _ => []
  end.

(** [.head(n)] of a grouped frame: a row is kept when fewer than [n] rows
    of its group precede it; rows without a key belong to no group.
    [seen] holds the keys of the rows already passed. *)
Fixpoint head {A : Type} (key : A -> option value) (n : nat)
  (seen : list value) (rows : list A) : list A :=
  match rows with
  | [] => []
  | r :: rest =>
      match key r with
      | None => head key n seen rest
      | Some k =>
          if (length (filter (value_eqb k) seen) <? n)%nat
          then r :: head key n (k :: seen) rest
          else head key n (k :: seen) rest
      end
  end.

End GroupBy.

(** One row of the aggregate table: a diet type and its three means. *)
Record agg_row : Type := mkAgg {
  a_diet : value;
  a_protein : option Qc;
  a_carbs : option Qc;
  a_fat : option Qc
}.

(** [df.groupby(key)[[p, c, f]].mean()] *)
Definition groupby_mean (df : DataFrame) (key p c f : string)
  : result (list agg_row) :=
  (ks <~ key_col df key ;;
   _ <~ key_col df p ;;
   _ <~ key_col df c ;;
   _ <~ key_col df f ;;
   ps <~ num_col df p ;;
   cs <~ num_col df c ;;
   fs <~ num_col df f ;;
   Ok (map (fun k =>
              {| a_diet := k;
                 a_protein := Series.mean (GroupBy.select ks ps k);
                 a_carbs := Series.mean (GroupBy.select ks cs k);
                 a_fat := Series.mean (GroupBy.select ks fs k) |})
           (GroupBy.keys ks)))%script.

(* ------------------------------------------------------------------ *)
(** ** sort_values(by=..., ascending=False) *)

Module Sort.

(** [a] may stand before [b] in descending order; [NaN] goes last. *)
Definition geb (a b : option Qc) : bool :=
  match a, b with
  | Some x, Some y => Num.leb y x
  | Some _, None => true
  | None, Some _ => false
  | None, None => true
  end.

Fixpoint insert {A : Type} (by_ : A -> option Qc) (x : A) (l : list A)
  : list A :=
  match l with
  | [] => [x]
  | y :: l' =>
      if geb (by_ x) (by_ y) then x :: y :: l' else y :: insert by_ x l'
  end.

(** Descending sort.  Rows of equal key are left in frame order here;
    pandas' default sort does not promise an order among them, and no
    property below depends on it. *)
Definition sort_desc {A : Type} (by_ : A -> option Qc) (l : list A)
  : list A :=
  fold_right (insert by_) [] l.

End Sort.

(* ------------------------------------------------------------------ *)
(** ** Steps 3, 4 and 7 of the pipeline *)

(** Step 3: [avg_macros]. *)
Definition avg_macros (df : DataFrame) (r : resolved) : result (list agg_row) :=
  (t <~ groupby_mean df (diet_col r) (protein_col r) (carbs_col r) (fat_col r) ;;
   Ok (Sort.sort_desc a_protein t))%script.

(** A record of the frame restricted to the six resolved columns; [idx] is
    its position in the frame (the pandas index). *)
Record row : Type := mkRow {
  idx : nat;
  r_diet : option value;
  r_recipe : option value;
  r_cuisine : option value;
  r_protein : option Qc;
  r_carbs : option Qc;
  r_fat : option Qc
}.

Definition cell_at {A : Type} (xs : list (option A)) (i : nat) : option A :=
  nth i xs None.

Definition rows_of (ds rs cs : list (option value))
  (ps cbs fs : list (option Qc)) : list row :=
  map (fun i =>
         {| idx := i;
            r_diet := cell_at ds i;
            r_recipe := cell_at rs i;
            r_cuisine := cell_at cs i;
            r_protein := cell_at ps i;
            r_carbs := cell_at cbs i;
            r_fat := cell_at fs i |})
      (seq 0 (length ds)).

(** The records of the frame under the resolved names. *)
Definition records (df : DataFrame) (r : resolved) : result (list row) :=
  (ds <~ key_col df (diet_col r) ;;
   rs <~ key_col df (recipe_col r) ;;
   cs <~ key_col df (cuisine_col r) ;;
   ps <~ num_col df (protein_col r) ;;
   cbs <~ num_col df (carbs_col r) ;;
   fs <~ num_col df (fat_col r) ;;
   Ok (rows_of ds rs cs ps cbs fs))%script.

(** Step 4: [top5_by_diet]. *)
Definition top5_of (rows : list row) : list row :=
  GroupBy.head r_diet 5 [] (Sort.sort_desc r_protein rows).

Definition top5_by_diet (df : DataFrame) (r : resolved) : result (list row) :=
  (rows <~ records df r ;; Ok (top5_of rows))%script.

(** The outcome of a division cell by cell. *)
Inductive quotient : Type :=
| Undefined
| Defined (q : Qc)
| Infinite.

(** [s.replace(0, pd.NA)] *)
Definition replace_zero (xs : list (option Qc)) : list (option Qc) :=
  map (fun x => match x with
                | Some q => if Num.eqb q 0%Qc then None else Some q
                | None => None
                end) xs.

(** One cell of [a / b]: missing operands give a missing result; the
    quotient by a zero that is still there would be infinite (or [NaN]
    for 0/0). *)
Definition true_div (a b : option Qc) : quotient :=
  match a, b with
  | Some x, Some y =>
      if Num.eqb y 0%Qc
      then (if Num.eqb x 0%Qc then Undefined else Infinite)
      else Defined (x / y)%Qc
  | _, _ => Undefined
  end.

Definition series_div (xs ys : list (option Qc)) : list quotient :=
  map (fun ab => true_div (fst ab) (snd ab)) (combine xs ys).

(** Step 7: the column [num / safe_den]. *)
Definition ratio_col (num den : list (option Qc)) : list quotient :=
  series_div num (replace_zero den).

(** One cell of that column. *)
Definition ratio (num den : option Qc) : quotient :=
  match ratio_col [num] [den] with
  | [q] => q
  | _ => Undefined
  end.

Definition Protein_to_Carbs_ratio (df : DataFrame) (r : resolved)
  : result (list quotient) :=
  (ps <~ num_col df (protein_col r) ;;
   cs <~ num_col df (carbs_col r) ;;
   Ok (ratio_col ps cs))%script.

Definition Carbs_to_Fat_ratio (df : DataFrame) (r : resolved)
  : result (list quotient) :=
  (cs <~ num_col df (carbs_col r) ;;
   fs <~ num_col df (fat_col r) ;;
   Ok (ratio_col cs fs))%script.

(* ------------------------------------------------------------------ *)
(** ** The ingestion pipeline as a script ([data_analysis.py]) *)

(** What the script prints, one constructor per [print] of a distinct
    shape; tables are kept as data. *)
Inductive out : Type :=
| Text (s : string)
| Shape (nrows ncols : nat)
| MissingBefore (n : nat)
| MissingAfter (n : nat)
| DetectedColumns (cols : list string)
| DetectedNames (r : resolved)
| AvgMacros (t : list agg_row)
| Top5 (t : list row)
| NewMetrics (pc cf : list quotient).

Definition print (o : out) : M (list out) unit :=
  fun w => (Ok tt, (w ++ [o])%list).

(** [df.shape[0]] *)
Definition nrows (df : DataFrame) : nat :=
  match df with
  | [] => 0
  | (_, c) :: _ => length (cells c)
  end.

(** The six names when all are found. *)
Definition resolve (df : DataFrame) : option resolved :=
  match pick_col df diet_names, pick_col df recipe_names,
        pick_col df cuisine_names, pick_col df protein_names,
        pick_col df carbs_names, pick_col df fat_names with
  | Some d, Some r, Some c, Some p, Some cb, Some f =>
      Some (mkResolved d r c p cb f)
  | _, _, _, _, _, _ => None
  end.

(** The tables the run computes once the columns are known. *)
Record report : Type := mkReport {
  rep_avg_macros : list agg_row;
  rep_top5 : list row;
  rep_protein_to_carbs : list quotient;
  rep_carbs_to_fat : list quotient
}.

(** Lines 13 to 87 and 120 to 127 of the script, run on the frame
    [read_csv] returned.  Lines 89 to 115 are not run here: the printing
    loop, the highest-protein diet (which stops the script when the table
    has no mean) and the common cuisines are embedded apart as [blocks],
    [highest_protein] and [common_cuisines]; the charts are not embedded. *)
Definition main (df0 : DataFrame) : M (list out) report :=
  (print (Text "=== Cloud-Native Nutritional Insights: Dataset Analysis ===") ;;;
   print (Text "Loaded dataset: data/All_Diets.csv") ;;;
   print (Shape (nrows df0) (length df0)) ;;;
   let cols := numeric_cols df0 in
   let missing_before := missing_total df0 cols in
   let df := clean df0 in
   let missing_after := missing_total df cols in
   print (MissingBefore missing_before) ;;;
   print (MissingAfter missing_after) ;;;
   if any_none (required df) then
     print (Text "ERROR: Could not detect one or more required columns.") ;;;
     print (DetectedColumns (columns df)) ;;;
     raise (SystemExit 1)
   else
     match resolve df with
     | None => raise (SystemExit 1)
     | Some r =>
         print (DetectedNames r) ;;;
         avg <- lift (avg_macros df r) ;;
         print (Text "=== Average Macros per Diet Type ===") ;;;
         print (AvgMacros avg) ;;;
         print (Text "=== Top 5 Protein Recipes per Diet Type ===") ;;;
         top <- lift (top5_by_diet df r) ;;
         print (Top5 top) ;;;
         pc <- lift (Protein_to_Carbs_ratio df r) ;;
         cf <- lift (Carbs_to_Fat_ratio df r) ;;
         print (Text "=== New Metrics Created ===") ;;;
         print (NewMetrics pc cf) ;;;
         ret (mkReport avg top pc cf)
     end)%script.

(** The aggregate table the pipeline's Aggregator builds for a dataset. *)
Definition pipeline_avg_macros (df0 : DataFrame) : result (list agg_row) :=
  match resolve (clean df0) with
  | Some r => avg_macros (clean df0) r
  | None => Raise (SystemExit 1)
  end.

(* ------------------------------------------------------------------ *)
(** ** The remote fetch job ([lambda_function.py]) *)

Unset Elimination Schemes.
Inductive json : Type :=
| JNaN
| JNum (q : Qc)
| JStr (s : string)
| JArr (items : list json)
| JObj (fields : list (string * json)).
Set Elimination Schemes.

(** The world of the job: what it printed, the blob service (the
    containers and blobs it holds, and which of the requests sent to it
    fail to connect) and the local disk.  A blob is kept as the frame its
    bytes parse to. *)
Record cloud : Type := mkCloud {
  c_out : list string;
  c_requests : nat;
  c_outages : list nat;
  c_containers : list string;
  c_blobs : list (string * string * DataFrame);
  c_disk_ok : bool;
  c_files : list (string * json)
}.

Definition reachable (w : cloud) : bool :=
  negb (existsb (Nat.eqb (c_requests w)) (c_outages w)).

Definition sent (w : cloud) : cloud :=
  mkCloud (c_out w) (S (c_requests w)) (c_outages w) (c_containers w)
          (c_blobs w) (c_disk_ok w) (c_files w).

Definition say (s : string) : M cloud unit :=
  fun w => (Ok tt,
            mkCloud (c_out w ++ [s])%list (c_requests w) (c_outages w)
                    (c_containers w) (c_blobs w) (c_disk_ok w) (c_files w)).

(** [container_client.create_container()]: a reached service creates the
    container or answers that it exists; other error replies are not
    modelled here, and what must hold whatever the call does is stated
    over [ensure_with]. *)
Definition create_container (name : string) : M cloud unit :=
  fun w =>
    if reachable w then
      if existsb (String.eqb name) (c_containers w)
      then (Raise ResourceExistsError, sent w)
      else (Ok tt,
            mkCloud (c_out w) (S (c_requests w)) (c_outages w)
                    (name :: c_containers w) (c_blobs w) (c_disk_ok w)
                    (c_files w))
    else (Raise ServiceRequestError, sent w).

Fixpoint find_blob (blobs : list (string * string * DataFrame))
  (container blob : string) : option DataFrame :=
  match blobs with
  | [] => None
  | (c, b, content) :: rest =>
      if ((c =? container) && (b =? blob))%string then Some content
      else find_blob rest container blob
  end.

(** [pd.read_csv(io.BytesIO(blob_client.download_blob().readall()))]: the
    blob is kept as the frame its bytes parse to, so a failure of the
    parse is not modelled here; what must hold whatever the download and
    the parse do is stated over [summarize_with]. *)
Definition download_csv (container blob : string) : M cloud DataFrame :=
  fun w =>
    if reachable w then
      if existsb (String.eqb container) (c_containers w) then
        match find_blob (c_blobs w) container blob with
        | Some content => (Ok content, sent w)
        | None => (Raise ResourceNotFoundError, sent w)
        end
      else (Raise ResourceNotFoundError, sent w)
    else (Raise ServiceRequestError, sent w).

(** [with open(path, "w") as f: json.dump(j, f, indent=4)] *)
Definition dump_json (path : string) (j : json) : M cloud unit :=
  fun w =>
    if c_disk_ok w then
      (Ok tt,
       mkCloud (c_out w) (c_requests w) (c_outages w) (c_containers w)
               (c_blobs w) (c_disk_ok w) ((path, j) :: c_files w))
    else (Raise OSError, w).

Definition json_of_value (v : value) : json :=
  match v with VNum q => JNum q | VStr s => JStr s end.

Definition json_of_mean (m : option Qc) : json :=
  match m with Some q => JNum q | None => JNaN end.

(** [avg_macros.reset_index().to_dict(orient="records")] *)
Definition to_records (t : list agg_row) : list json :=
  map (fun a =>
         JObj [ ("Diet_type", json_of_value (a_diet a));
                ("Protein(g)", json_of_mean (a_protein a));
                ("Carbs(g)", json_of_mean (a_carbs a));
                ("Fat(g)", json_of_mean (a_fat a)) ]) t.

(** The aggregate of the job: the group means, in [groupby] order. *)
Definition remote_avg_macros (df : DataFrame) : result (list agg_row) :=
  groupby_mean df "Diet_type" "Protein(g)" "Carbs(g)" "Fat(g)".

Definition container_name : string := "datasets".
Definition blob_name : string := "All_Diets.csv".
Definition results_path : string := "simulated_nosql/results.json".

(** The [try] statement of lines 23 to 27. *)
Definition ensure_container : M cloud unit :=
  try_except
    (create_container container_name ;;; say "Container created")%script
    (say "Container already exists").

(** Lines 29 to 43. *)
Definition fetch_and_summarize : M cloud string :=
  (df <- download_csv container_name blob_name ;;
   avg <- lift (remote_avg_macros df) ;;
   dump_json results_path (JArr (to_records avg)) ;;;
   ret "Data processed and stored successfully.")%script.

Definition process_nutritional_data_from_azurite : M cloud string :=
  (ensure_container ;;; fetch_and_summarize)%script.

(** The array found in the results file, if the job wrote one. *)
Definition written_array (w : cloud) : option (list json) :=
  match c_files w with
  | (path, JArr items) :: _ =>
      if (path =? results_path)%string then Some items else None
  | _ => None
  end.

(* ------------------------------------------------------------------ *)
(** ** Notions used to state the properties *)

(** What one pass of the cleaning loop leaves in a numeric column. *)
Definition imputed (xs : list (option Qc)) : list (option Qc) :=
  if Series.any_na xs then Series.fillna xs (Series.mean xs) else xs.

Definition clean_column (c : column) : column :=
  match c with
  | NumCol xs => NumCol (imputed xs)
  | ObjCol xs => ObjCol xs
  end.


(** The cell [fillna] leaves where it fills with [m]. *)
Definition fill_with (m : Qc) (x : option Qc) : option Qc :=
  match x with None => Some m | Some _ => x end.



(* ------------------------------------------------------------------ *)
(** ** Sample datasets *)

Module Sample.

(** An integer cell. *)
Definition n (z : Z) : option Qc := Some (Q2Qc (inject_Z z)).

(** Three recipes, diet types A, A, B, protein 10, 20, 5. *)
Definition three_rows : DataFrame :=
  [ ("Diet_type", ObjCol [Some "A"; Some "A"; Some "B"]);
    ("Recipe_name", ObjCol [Some "r1"; Some "r2"; Some "r3"]);
    ("Cuisine_type", ObjCol [Some "x"; Some "y"; Some "x"]);
    ("Protein(g)", NumCol [n 10; n 20; n 5]);
    ("Carbs(g)", NumCol [n 5; n 0; n 4]);
    ("Fat(g)", NumCol [n 1; n 2; n 3]) ].

(** The same shape with one protein value missing. *)
Definition with_gap : DataFrame :=
  [ ("Diet_type", ObjCol [Some "A"; Some "A"; Some "B"]);
    ("Recipe_name", ObjCol [Some "r1"; Some "r2"; Some "r3"]);
    ("Cuisine_type", ObjCol [Some "x"; Some "y"; Some "x"]);
    ("Protein(g)", NumCol [n 10; None; n 30]);
    ("Carbs(g)", NumCol [n 5; n 0; n 4]);
    ("Fat(g)", NumCol [n 1; n 2; n 3]) ].


End Sample.


(** [found] is what first-match resolution over [cands] must return: the
    first candidate that names a column, or nothing when none does. *)
Definition first_present (df : DataFrame) (cands : list string)
  (found : option string) : Prop :=
  match found with
  | Some name =>
      exists before after,
        cands = (before ++ name :: after)%list
        /\ In name (columns df)
        /\ forall c, In c before -> ~ In c (columns df)
  | None => forall c, In c cands -> ~ In c (columns df)
  end.

(** [s] is the one spelling among [cands] that the frame has. *)
Definition only_spelling (df : DataFrame) (cands : list string) (s : string)
  : Prop :=
  In s cands /\ In s (columns df)
  /\ forall c, In c cands -> In c (columns df) -> c = s.

Module SampleNames.

(** A frame that spells the diet column "diet_type". *)
Definition lower_case : DataFrame :=
  [ ("diet_type", ObjCol [Some "A"]); ("Protein", NumCol [Sample.n 1]) ].

Definition reordered : list string :=
  ["diet"; "diet_type"; "Diet Type"; "Diet_type"].

End SampleNames.


(** A result that, when it raises, raises an ordinary [Exception] and never
    [SystemExit]. *)
Definition no_exit {A : Type} (r : result A) : Prop :=
  match r with
  | Ok _ => True
  | Raise e => is_Exception e = true
  end.

(** The printed tables that come out of an aggregation. *)
Definition is_aggregate (o : out) : bool :=
  match o with
  | AvgMacros _ | Top5 _ | NewMetrics _ _ => true
  | _ => false
  end.

Definition missing_columns_message : out :=
  Text "ERROR: Could not detect one or more required columns.".

Module SampleAbort.

(** A table without any cuisine column. *)
Definition no_cuisine : DataFrame :=
  [ ("Diet_type", ObjCol [Some "A"]);
    ("Recipe_name", ObjCol [Some "r1"]);
    ("Protein(g)", NumCol [Sample.n 10]);
    ("Carbs(g)", NumCol [Sample.n 5]);
    ("Fat(g)", NumCol [Sample.n 1]) ].

End SampleAbort.


(** Strict order on group keys. *)
Definition value_lt (a b : value) : Prop := value_compare a b = Lt.

(** Descending order on means, missing ones last. *)
Definition desc (a b : option Qc) : Prop :=
  match a, b with
  | Some x, Some y => (y <= x)%Qc
  | _, None => True
  | None, Some _ => False
  end.

(** [a] is strictly lower than [b]; a missing value compares with nothing. *)
Definition lower (a b : option Qc) : Prop :=
  match a, b with
  | Some x, Some y => (x < y)%Qc
  | _, _ => False
  end.


(** The values [xs] holds on the rows whose key is [k]: the group of [k]. *)
Definition members {A : Type} (ks : list (option value)) (xs : list A)
  (k : value) : list A :=
  map snd
    (filter (fun kx => match fst kx with
                       | Some k' => value_eqb k' k
                       | None => false
                       end)
            (combine ks xs)).

(** The arithmetic mean: the sum of the values over their number. *)
Definition arithmetic_mean (vs : list Qc) : option Qc :=
  match vs with
  | [] => None
  | _ :: _ => Some (Num.sum vs / Num.of_nat (length vs))%Qc
  end.

(** The mean of column [xs] over the group of [k], missing cells skipped. *)
Definition group_mean (ks : list (option value)) (xs : list (option Qc))
  (k : value) : option Qc :=
  arithmetic_mean (Series.dropna (members ks xs k)).

(** The aggregate table [t] is the table of group means of the frame whose
    key column is [ks] and macro columns [ps], [cs], [fs]: one row per
    diet type, each holding the three means of its group, rows in
    descending order of mean protein. *)
Definition aggregate_of (ks : list (option value))
  (ps cs fs : list (option Qc)) (t : list agg_row) : Prop :=
  (forall k, In k (map a_diet t) <-> In (Some k) ks)
  /\ NoDup (map a_diet t)
  /\ (forall a, In a t ->
        a_protein a = group_mean ks ps (a_diet a)
        /\ a_carbs a = group_mean ks cs (a_diet a)
        /\ a_fat a = group_mean ks fs (a_diet a))
  /\ StronglySorted (fun a b => desc (a_protein a) (a_protein b)) t.

(** The diet types and mean protein of an aggregate table, in its order. *)
Definition protein_ranking (t : list agg_row) : list (value * option Q) :=
  map (fun a => (a_diet a, option_map this (a_protein a))) t.

(** The names under which the sample frames spell the six fields. *)
Definition canonical_names : resolved :=
  mkResolved "Diet_type" "Recipe_name" "Cuisine_type"
             "Protein(g)" "Carbs(g)" "Fat(g)".


(** The table [groupby(...).mean()] builds, before any sorting. *)
Definition mean_rows (ks : list (option value))
  (ps cs fs : list (option Qc)) : list agg_row :=
  map (fun k =>
         {| a_diet := k;
            a_protein := Series.mean (GroupBy.select ks ps k);
            a_carbs := Series.mean (GroupBy.select ks cs k);
            a_fat := Series.mean (GroupBy.select ks fs k) |})
      (GroupBy.keys ks).


(** How many of the rows already passed carry key [k]. *)
Definition seen_count (k : value) (seen : list value) : nat :=
  length (filter (value_eqb k) seen).

(** The row belongs to group [k]. *)
Definition in_group {A : Type} (key : A -> option value) (k : value) (x : A)
  : bool :=
  match key x with
  | Some k' => value_eqb k' k
  | None => false
  end.

(** The record belongs to diet type [k]. *)
Definition of_diet (k : value) (x : row) : bool := in_group r_diet k x.


(** The distinct values of a list, each at its last occurrence. *)
Fixpoint distinct (l : list value) : list value :=
  match l with
  | [] => []
  | x :: t => if existsb (value_eqb x) t then distinct t else x :: distinct t
  end.

(** The number of distinct diet types among the keys [ks]. *)
Definition distinct_count (ks : list (option value)) : nat :=
  length (distinct (Series.dropna ks)).

(** The container of the job exists in the service. *)
Definition container_exists (w : cloud) : Prop :=
  existsb (String.eqb container_name) (c_containers w) = true.

(** After the request that set the container up, the service answers the
    download with the dataset [df], and the disk takes the results file. *)
Definition download_ready (w : cloud) (df : DataFrame) : Prop :=
  reachable (sent w) = true
  /\ find_blob (c_blobs w) container_name blob_name = Some df
  /\ c_disk_ok w = true.

(** The dataset has the four columns the job names, the macros numeric. *)
Definition remote_columns (df : DataFrame) (ks : list (option value))
  (ps cs fs : list (option Qc)) : Prop :=
  key_col df "Diet_type" = Ok ks
  /\ num_col df "Protein(g)" = Ok ps
  /\ num_col df "Carbs(g)" = Ok cs
  /\ num_col df "Fat(g)" = Ok fs.

(** The diet type a JSON record carries. *)
Definition json_diet (j : json) : option json :=
  match j with
  | JObj ((name, v) :: _) =>
      if (name =? "Diet_type")%string then Some v else None
  | _ => None
  end.

(** A column without missing numeric value; cleaning leaves it as it is. *)
Definition complete (c : column) : Prop :=
  match c with
  | NumCol xs => Series.any_na xs = false
  | ObjCol _ => True
  end.

(** The four columns the remote job reads are complete in [df]. *)
Definition remote_inputs_complete (df : DataFrame) : Prop :=
  forall name c,
    In name ["Diet_type"; "Protein(g)"; "Carbs(g)"; "Fat(g)"] ->
    get_col df name = Some c -> complete c.

Module SampleCloud.

(** Diet type A is the poorer in protein: the two orders differ. *)
Definition b_richer : DataFrame :=
  [ ("Diet_type", ObjCol [Some "A"; Some "B"; Some "B"]);
    ("Recipe_name", ObjCol [Some "r1"; Some "r2"; Some "r3"]);
    ("Cuisine_type", ObjCol [Some "x"; Some "y"; Some "x"]);
    ("Protein(g)", NumCol [Sample.n 5; Sample.n 20; Sample.n 30]);
    ("Carbs(g)", NumCol [Sample.n 5; Sample.n 1; Sample.n 4]);
    ("Fat(g)", NumCol [Sample.n 1; Sample.n 2; Sample.n 3]) ].

(** A service that already holds the container and the blob. *)
Definition provisioned (df : DataFrame) (outages : list nat) : cloud :=
  {| c_out := [];
     c_requests := 0%nat;
     c_outages := outages;
     c_containers := ["datasets"];
     c_blobs := [("datasets", "All_Diets.csv", df)];
     c_disk_ok := true;
     c_files := [] |}.

(** The connection fails on the first request only. *)
Definition first_request_lost : cloud := provisioned Sample.three_rows [0%nat].

End SampleCloud.


(** The remote job computes, for the dataset [df], the per-diet means the
    pipeline's aggregate table holds (the same rows, in whatever order). *)
Definition remote_matches_pipeline (df : DataFrame) : Prop :=
  forall t,
    pipeline_avg_macros df = Ok t ->
    exists t', remote_avg_macros df = Ok t' /\ Permutation t t'.


Module SampleTop.

(** Seven recipes of one diet type and one of another, the protein of
    the seven rising with the row number. *)
Definition eight_rows : DataFrame :=
  [ ("Diet_type",
      ObjCol [Some "A"; Some "A"; Some "A"; Some "B";
              Some "A"; Some "A"; Some "A"; Some "A"]);
    ("Recipe_name",
      ObjCol [Some "r0"; Some "r1"; Some "r2"; Some "r3";
              Some "r4"; Some "r5"; Some "r6"; Some "r7"]);
    ("Cuisine_type",
      ObjCol [Some "x"; Some "x"; Some "x"; Some "x";
              Some "x"; Some "x"; Some "x"; Some "x"]);
    ("Protein(g)",
      NumCol [Sample.n 1; Sample.n 2; Sample.n 3; Sample.n 9;
              Sample.n 4; Sample.n 5; Sample.n 6; Sample.n 7]);
    ("Carbs(g)",
      NumCol [Sample.n 1; Sample.n 1; Sample.n 1; Sample.n 1;
              Sample.n 1; Sample.n 1; Sample.n 1; Sample.n 1]);
    ("Fat(g)",
      NumCol [Sample.n 1; Sample.n 1; Sample.n 1; Sample.n 1;
              Sample.n 1; Sample.n 1; Sample.n 1; Sample.n 1]) ].

(** The row numbers of a selection, in its order. *)
Definition row_numbers (t : result (list row)) : option (list nat) :=
  match t with
  | Ok rows => Some (map idx rows)
  | Raise _ => None
  end.

End SampleTop.


(* ------------------------------------------------------------------ *)
(** ** Notions for the further properties of the cleaning step *)

(** The cell is present. *)
Definition present {A : Type} (x : option A) : Prop := x <> None.


Module SampleClean.

(** Two numeric columns with gaps beside a text column with a gap. *)
Definition gaps : DataFrame :=
  [ ("Diet_type", ObjCol [Some "A"; None; Some "B"]);
    ("Protein(g)", NumCol [Sample.n 10; None; Sample.n 30]);
    ("Fat(g)", NumCol [None; Sample.n 4; None]) ].

End SampleClean.


(** The six names of a resolution, in the order of [required]. *)
Definition resolved_names (r : resolved) : list string :=
  [ diet_col r; recipe_col r; cuisine_col r;
    protein_col r; carbs_col r; fat_col r ].

(** No name of [l1] is a name of [l2]. *)
Definition disjoint_names (l1 l2 : list string) : bool :=
  forallb (fun x => negb (existsb (String.eqb x) l2)) l1.


(* ------------------------------------------------------------------ *)
(** ** Step 5 of the pipeline: the diet type of highest mean protein *)

(** The scan behind [avg_macros[protein_col].idxmax()], with the value
    [.loc] reads back at the label found: missing means are skipped and
    the first row holding the greatest mean wins. *)
Fixpoint idxmax_from (best : option (value * Qc)) (t : list agg_row)
  : option (value * Qc) :=
  match t with
  | [] => best
  | a :: rest =>
      match a_protein a, best with
      | None, _ => idxmax_from best rest
      | Some m, None => idxmax_from (Some (a_diet a, m)) rest
      | Some m, Some (_, mb) =>
          if Num.leb m mb then idxmax_from best rest
          else idxmax_from (Some (a_diet a, m)) rest
      end
  end.

(** [highest_protein_diet] and [highest_protein_value]; [None] when the
    table has no mean at all, where pandas has no label to give and the
    script stops on an exception. *)
Definition highest_protein (t : list agg_row) : option (value * Qc) :=
  idxmax_from None t.


(* ------------------------------------------------------------------ *)
(** ** Iterating over a grouped frame *)

(** [for k, block in t.groupby(key)]: the groups in ascending key order,
    each with its rows in frame order. *)
Definition blocks {A : Type} (key : A -> option value) (t : list A)
  : list (value * list A) :=
  map (fun k => (k, filter (in_group key k) t)) (GroupBy.keys (map key t)).

(** The row carries a key. *)
Definition keyed {A : Type} (key : A -> option value) (x : A) : bool :=
  negb (Series.isna (key x)).


(* ------------------------------------------------------------------ *)
(** ** Step 6 of the pipeline: the most common cuisines per diet type *)

(** One row of [common_cuisines]: a diet type, a cuisine and the number
    of records that carry both. *)
Record cuisine_count : Type := mkCount {
  cc_diet : value;
  cc_cuisine : value;
  cc_count : nat
}.

Module Cuisines.

(** The order of a two-key [groupby]: by the first key, then the second. *)
Definition pair_compare (p q : value * value) : comparison :=
  match value_compare (fst p) (fst q) with
  | Eq => value_compare (snd p) (snd q)
  | c => c
  end.

Definition pair_eqb (p q : value * value) : bool :=
  match pair_compare p q with Eq => true | _ => false end.

Definition pair_lt (p q : value * value) : Prop := pair_compare p q = Lt.

Fixpoint insert_pair (p : value * value) (l : list (value * value))
  : list (value * value) :=
  match l with
  | [] => [p]
  | h :: t =>
      match pair_compare p h with
      | Lt => p :: l
      | Eq => l
      | Gt => h :: insert_pair p t
      end
  end.

(** The key pairs of the rows that have both keys ([dropna=True]). *)
Definition present_pairs (rows : list row) : list (value * value) :=
  Series.dropna
    (map (fun x => match r_diet x, r_cuisine x with
                   | Some d, Some c => Some (d, c)
                   | _, _ => None
                   end) rows).

(** The groups: distinct pairs, ascending. *)
Definition pair_keys (pairs : list (value * value)) : list (value * value) :=
  fold_right insert_pair [] pairs.

(** [.size()] of the group of [p]. *)
Definition size (pairs : list (value * value)) (p : value * value) : nat :=
  length (filter (pair_eqb p) pairs).

End Cuisines.

(** [df.groupby([diet_col, cuisine_col]).size().reset_index(name="count")] *)
Definition cuisine_sizes (rows : list row) : list cuisine_count :=
  map (fun p => mkCount (fst p) (snd p)
                        (Cuisines.size (Cuisines.present_pairs rows) p))
      (Cuisines.pair_keys (Cuisines.present_pairs rows)).

(** [common_cuisines]: the sizes, sorted by descending count. *)
Definition common_cuisines (rows : list row) : list cuisine_count :=
  Sort.sort_desc (fun c => Some (Num.of_nat (cc_count c)))
                 (cuisine_sizes rows).

(** [top_cuisine_per_diet = common_cuisines.groupby(diet_col).head(3)] *)
Definition top_cuisine_per_diet (rows : list row) : list cuisine_count :=
  GroupBy.head (fun c => Some (cc_diet c)) 3 [] (common_cuisines rows).

(** The record has diet type [d] and cuisine [c]. *)
Definition of_diet_and_cuisine (d c : value) (x : row) : bool :=
  in_group r_diet d x && in_group r_cuisine c x.

Module SampleCuisine.

(** Diet A with four cuisines, recorded four, three, two times and once;
    one record of diet B without cuisine. *)
Definition rows : list row :=
  map (fun t =>
         mkRow (fst (fst t)) (Some (VStr (snd (fst t)))) None (snd t)
               None None None)
      [ (0%nat, "A", Some (VStr "thai")); (1%nat, "A", Some (VStr "thai"));
        (2%nat, "A", Some (VStr "greek")); (3%nat, "A", Some (VStr "thai"));
        (4%nat, "A", Some (VStr "greek")); (5%nat, "A", Some (VStr "irish"));
        (6%nat, "A", Some (VStr "cuban")); (7%nat, "A", Some (VStr "cuban"));
        (8%nat, "A", Some (VStr "thai")); (9%nat, "A", Some (VStr "greek"));
        (10%nat, "B", Some (VStr "thai")); (11%nat, "B", None) ].

(** The rows of a table, as (diet type, cuisine, count). *)
Definition show (t : list cuisine_count) : list (value * value * nat) :=
  map (fun c => (cc_diet c, cc_cuisine c, cc_count c)) t.

End SampleCuisine.


(* ------------------------------------------------------------------ *)
(** ** Notions for the further properties of the remote job *)

(** The [try] statement of lines 23 to 27 over any behaviour [create] of
    [container_client.create_container()]. *)
Definition ensure_with (create : M cloud unit) : M cloud unit :=
  try_except
    (create ;;; say "Container created")%script
    (say "Container already exists").

(** Lines 29 to 43 over any behaviour [download] of the download and the
    parse of lines 32 and 33. *)
Definition summarize_with (download : M cloud DataFrame) : M cloud string :=
  (df <- download ;;
   avg <- lift (remote_avg_macros df) ;;
   dump_json results_path (JArr (to_records avg)) ;;;
   ret "Data processed and stored successfully.")%script.

(** The job over any behaviour of the two service calls. *)
Definition job_with (create : M cloud unit) (download : M cloud DataFrame)
  : M cloud string :=
  (ensure_with create ;;; summarize_with download)%script.

(** The operation leaves the local files alone. *)
Definition off_disk {A : Type} (op : M cloud A) : Prop :=
  forall w, c_files (snd (op w)) = c_files w.



Module SampleHeader.

(** A dataset that spells its diet column "Diet Type". *)
Definition spaced : DataFrame :=
  [ ("Diet Type", ObjCol [Some "A"; Some "B"]);
    ("Recipe_name", ObjCol [Some "r1"; Some "r2"]);
    ("Cuisine_type", ObjCol [Some "x"; Some "y"]);
    ("Protein(g)", NumCol [Sample.n 10; Sample.n 20]);
    ("Carbs(g)", NumCol [Sample.n 5; Sample.n 4]);
    ("Fat(g)", NumCol [Sample.n 1; Sample.n 2]) ].

End SampleHeader.





(** One record of the results file. *)
Definition json_record (k : value) (p c f : option Qc) : json :=
  JObj [ ("Diet_type", json_of_value k);
         ("Protein(g)", json_of_mean p);
         ("Carbs(g)", json_of_mean c);
         ("Fat(g)", json_of_mean f) ].


(* ------------------------------------------------------------------ *)
(** ** The mean in binary64 *)

(** [Series.mean] and [fillna] on [float64] cells, for a column of fewer
    than eight cells, where the sum is accumulated cell after cell. *)
Module F64.

Import PrimFloat.

(** A count as a [float64] (exact below 2^53). *)
Fixpoint of_nat (n : nat) : float :=
  match n with
  | O => 0%float
  | S m => (of_nat m + 1)%float
  end.

Definition sum (l : list float) : float := fold_left add l 0%float.

Definition mean (xs : list (option float)) : option float :=
  match Series.dropna xs with
  | [] => None
  | v :: vs => Some (sum (v :: vs) / of_nat (length (v :: vs)))%float
  end.

Definition fillna (xs : list (option float)) (v : option float)
  : list (option float) :=
  match v with
  | None => xs
  | Some m => map (fun x => match x with None => Some m | Some _ => x end) xs
  end.

(** One pass of the cleaning loop over the column. *)
Definition imputed (xs : list (option float)) : list (option float) :=
  if Series.any_na xs then fillna xs (mean xs) else xs.

(** The column 0, 0, 0, 0, 1, missing. *)
Definition sample : list (option float) :=
  [Some 0; Some 0; Some 0; Some 0; Some 1; None]%float.

(** The binary64 numbers printed 0.2 and 0.19999999999999998. *)
Definition mean_before : float := 0x1.999999999999ap-3%float.
Definition mean_after : float := 0x1.9999999999999p-3%float.

End F64.

(* ------------------------------------------------------------------ *)
(** * Properties *)

(** ** Arithmetic of counts *)

Section NumFacts.

Local Open Scope Qc_scope.




End NumFacts.

(** ** Frames: reading and writing columns *)

Section FrameFacts.

Lemma get_set_same (df : DataFrame) (name : string) (c c0 : column) :
  get_col df name = Some c0 -> get_col (set_col df name c) name = Some c.
Proof.
  induction df as [| [n c1] rest IH]; simpl; [discriminate |].
  destruct (String.eqb_spec n name) as [-> | Hne]; simpl.
  - now rewrite String.eqb_refl.
  - intros H. apply String.eqb_neq in Hne. now rewrite Hne; apply IH.
Qed.

Lemma get_set_other (df : DataFrame) (name other : string) (c : column) :
  other <> name -> get_col (set_col df name c) other = get_col df other.
Proof.
  intros Hne. induction df as [| [n c1] rest IH]; simpl; [reflexivity |].
  destruct (String.eqb_spec n name) as [-> | Hn]; simpl.
  - destruct (String.eqb_spec name other) as [E | _]; [congruence | reflexivity].
  - now rewrite IH.
Qed.

Lemma get_col_In (df : DataFrame) (name : string) (c : column) :
  get_col df name = Some c -> In (name, c) df.
Proof.
  induction df as [| [n c1] rest IH]; simpl; [discriminate |].
  destruct (String.eqb_spec n name) as [-> | Hn].
  - intros [= ->]. now left.
  - intros H. right. now apply IH.
Qed.

Lemma clean_step_same (df : DataFrame) (name : string) :
  get_col (clean_step df name) name
  = option_map clean_column (get_col df name).
Proof.
  unfold clean_step.
  destruct (get_col df name) as [[xs | xs] |] eqn:E; simpl.
  - unfold imputed. destruct (Series.any_na xs).
    + now apply get_set_same with (c0 := NumCol xs).
    + exact E.
  - exact E.
  - exact E.
Qed.

Lemma clean_step_other (df : DataFrame) (name other : string) :
  other <> name -> get_col (clean_step df name) other = get_col df other.
Proof.
  intros Hne. unfold clean_step.
  destruct (get_col df name) as [[xs | xs] |]; try reflexivity.
  destruct (Series.any_na xs); [now apply get_set_other | reflexivity].
Qed.

Lemma clean_loop_untouched (names : list string) (df : DataFrame)
  (name : string) :
  ~ In name names ->
  get_col (fold_left clean_step names df) name = get_col df name.
Proof.
  revert df. induction names as [| n ns IH]; intros df Hnot; simpl.
  - reflexivity.
  - rewrite IH by (intro; apply Hnot; now right).
    apply clean_step_other. intros ->. apply Hnot. now left.
Qed.

Lemma clean_loop_visited (names : list string) (df : DataFrame)
  (name : string) :
  NoDup names -> In name names ->
  get_col (fold_left clean_step names df) name
  = option_map clean_column (get_col df name).
Proof.
  revert df. induction names as [| n ns IH]; intros df Hnd Hin; simpl.
  - destruct Hin.
  - inversion Hnd as [| ? ? Hn Hns]; subst.
    destruct (string_dec n name) as [-> | Hne].
    + rewrite clean_loop_untouched by assumption. apply clean_step_same.
    + destruct Hin as [E | Hin]; [contradiction |].
      rewrite IH by assumption.
      now rewrite clean_step_other by congruence.
Qed.

Lemma NoDup_map_fst_filter {A B : Type} (f : A * B -> bool)
  (l : list (A * B)) :
  NoDup (map fst l) -> NoDup (map fst (filter f l)).
Proof.
  induction l as [| x l IH]; simpl; intros H; [constructor |].
  inversion H as [| ? ? Hx Hl]; subst.
  destruct (f x); simpl; [constructor |]; auto.
  intros Hin. apply Hx.
  apply in_map_iff in Hin as [y [Hy Hin]].
  apply filter_In in Hin as [Hin _].
  apply in_map_iff. now exists y.
Qed.

(** The cleaning loop, column by column. *)
Lemma get_col_clean (df : DataFrame) (name : string) :
  wf_frame df ->
  get_col (clean df) name = option_map clean_column (get_col df name).
Proof.
  intros Hwf. unfold clean.
  destruct (in_dec string_dec name (numeric_cols df)) as [Hin | Hnot].
  - apply clean_loop_visited; [| assumption].
    now apply NoDup_map_fst_filter.
  - rewrite clean_loop_untouched by assumption.
    destruct (get_col df name) as [[xs | xs] |] eqn:E; try reflexivity.
    exfalso. apply Hnot. apply get_col_In in E.
    unfold numeric_cols. apply in_map_iff.
    exists (name, NumCol xs). split; [reflexivity |].
    apply filter_In. now split.
Qed.

Lemma columns_set_col (df : DataFrame) (name : string) (c : column) :
  columns (set_col df name c) = columns df.
Proof.
  unfold columns. induction df as [| [n c1] rest IH]; simpl; [reflexivity |].
  destruct (n =? name)%string; simpl; [reflexivity | now rewrite IH].
Qed.

Lemma columns_clean_step (df : DataFrame) (name : string) :
  columns (clean_step df name) = columns df.
Proof.
  unfold clean_step.
  destruct (get_col df name) as [[xs | xs] |]; try reflexivity.
  destruct (Series.any_na xs); [apply columns_set_col | reflexivity].
Qed.

(** Cleaning renames nothing. *)
Lemma columns_clean (df : DataFrame) : columns (clean df) = columns df.
Proof.
  unfold clean. generalize (numeric_cols df) as names.
  intros names. revert df.
  induction names as [| n ns IH]; intros df; simpl; [reflexivity |].
  now rewrite IH, columns_clean_step.
Qed.

End FrameFacts.

(** ** Mean imputation *)

Section Imputation.

Local Open Scope Qc_scope.








End Imputation.

(** ** Cleaning (claim C1) *)

Ltac distinct_names :=
  unfold wf_frame; simpl;
  repeat (constructor; [simpl; intuition discriminate |]); constructor.



(** In binary64 the mean of a column is not kept by the imputation: the
    column 0, 0, 0, 0, 1, missing has mean 0.2, and once the gap is filled
    with it, mean 0.19999999999999998. *)
Lemma float64_mean_moves :
  F64.mean F64.sample = Some F64.mean_before
  /\ F64.mean (F64.imputed F64.sample) = Some F64.mean_after
  /\ PrimFloat.eqb F64.mean_before F64.mean_after = false.
Proof. repeat split; vm_compute; reflexivity. Qed.


(** ** Column resolution (claim C6) *)

Section Resolver.

Lemma has_col_In (df : DataFrame) (name : string) :
  has_col df name = true <-> In name (columns df).
Proof.
  unfold has_col. rewrite existsb_exists. split.
  - intros [x [Hin Heq]]. apply String.eqb_eq in Heq. now subst.
  - intros Hin. exists name. split; [assumption | apply String.eqb_refl].
Qed.

Lemma has_col_not_In (df : DataFrame) (name : string) :
  has_col df name = false <-> ~ In name (columns df).
Proof.
  rewrite <- has_col_In. destruct (has_col df name); split; congruence.
Qed.

Lemma pick_col_first (df : DataFrame) (cands : list string) :
  first_present df cands (pick_col df cands).
Proof.
  induction cands as [| c cs IH]; simpl.
  - intros c [].
  - destruct (has_col df c) eqn:Hc.
    + exists [], cs. repeat split.
      * now apply has_col_In.
      * intros x [].
    + apply has_col_not_In in Hc.
      destruct (pick_col df cs) as [name |]; simpl in *.
      * destruct IH as (before & after & -> & Hin & Hbefore).
        exists (c :: before), after. repeat split; [assumption |].
        intros x [<- | Hx]; [assumption | now apply Hbefore].
      * intros x [<- | Hx]; [assumption | now apply IH].
Qed.

Lemma pick_col_only (df : DataFrame) (cands : list string) (s : string) :
  only_spelling df cands s -> pick_col df cands = Some s.
Proof.
  intros (Hin & Hcol & Huniq).
  pose proof (pick_col_first df cands) as H.
  destruct (pick_col df cands) as [name |]; simpl in H.
  - destruct H as (before & after & E & Hname & _).
    f_equal. apply Huniq; [| assumption].
    rewrite E. apply in_or_app. right. now left.
  - exfalso. now apply (H s).
Qed.

Lemma only_spelling_perm (df : DataFrame) (cands cands' : list string)
  (s : string) :
  Permutation cands cands' ->
  only_spelling df cands s -> only_spelling df cands' s.
Proof.
  intros Hp (Hin & Hcol & Huniq). repeat split.
  - now apply (Permutation_in _ Hp).
  - assumption.
  - intros c Hc. apply Huniq. now apply (Permutation_in _ (Permutation_sym Hp)).
Qed.

Lemma pick_col_ext (df df' : DataFrame) (cands : list string) :
  columns df = columns df' -> pick_col df cands = pick_col df' cands.
Proof.
  intros E. induction cands as [| c cs IH]; simpl; [reflexivity |].
  unfold has_col. now rewrite E, IH.
Qed.

End Resolver.

(** C6: resolution returns the first candidate, in the order of the list,
    that is among the table's columns (nothing when none is); hence when the
    table holds exactly one accepted spelling, that spelling is returned
    under every reordering of the candidate list. *)
Theorem pick_col_first_match_order_free (df : DataFrame)
  (cands : list string) :
  first_present df cands (pick_col df cands)
  /\ forall (s : string) (cands' : list string),
       only_spelling df cands s ->
       Permutation cands cands' ->
       pick_col df cands = Some s /\ pick_col df cands' = Some s.
Proof.
  split; [apply pick_col_first |].
  intros s cands' Honly Hp. split.
  - now apply pick_col_only.
  - apply pick_col_only. now apply only_spelling_perm with (cands := cands).
Qed.

Lemma pick_col_first_match_order_free_witness :
  only_spelling SampleNames.lower_case diet_names "diet_type"
  /\ Permutation diet_names SampleNames.reordered
  /\ pick_col SampleNames.lower_case diet_names = Some "diet_type"
  /\ pick_col SampleNames.lower_case SampleNames.reordered = Some "diet_type".
Proof.
  assert (Honly : only_spelling SampleNames.lower_case diet_names "diet_type").
  { unfold only_spelling, diet_names. simpl. repeat split; auto.
    intros c Hc Hcol.
    destruct Hcol as [<- | [<- | []]]; [reflexivity |].
    destruct Hc as [E | [E | [E | [E | []]]]]; discriminate E. }
  assert (Hp : Permutation diet_names SampleNames.reordered).
  { unfold diet_names, SampleNames.reordered.
    apply Permutation_rev with (l := ["Diet_type"; "Diet Type"; "diet_type"; "diet"]). }
  split; [exact Honly |]. split; [exact Hp |].
  exact (proj2 (pick_col_first_match_order_free SampleNames.lower_case diet_names)
           "diet_type" SampleNames.reordered Honly Hp).
Defined.

(** ** The fatal branch of the pipeline (claim C7) *)

Section Abort.

Lemma any_none_In (l : list (option string)) :
  any_none l = true <-> In None l.
Proof.
  unfold any_none. rewrite existsb_exists. split.
  - intros [[s |] [Hin Hna]]; [discriminate | assumption].
  - intros Hin. now exists None.
Qed.

Lemma required_clean (df : DataFrame) : required (clean df) = required df.
Proof.
  unfold required.
  now rewrite !(pick_col_ext (clean df) df _ (columns_clean df)).
Qed.

Lemma resolve_clean (df : DataFrame) : resolve (clean df) = resolve df.
Proof.
  unfold resolve.
  now rewrite !(pick_col_ext (clean df) df _ (columns_clean df)).
Qed.

Lemma resolve_required (df : DataFrame) :
  any_none (required df) = false <-> exists r, resolve df = Some r.
Proof.
  unfold required, resolve, any_none.
  destruct (pick_col df diet_names), (pick_col df recipe_names),
    (pick_col df cuisine_names), (pick_col df protein_names),
    (pick_col df carbs_names), (pick_col df fat_names); simpl;
    (split;
     [ intros H; first [discriminate H | eexists; reflexivity]
     | intros H; first [reflexivity | destruct H; discriminate] ]).
Qed.

Lemma no_exit_rbind {A B : Type} (r : result A) (k : A -> result B) :
  no_exit r -> (forall a, no_exit (k a)) -> no_exit (rbind r k).
Proof. destruct r; simpl; auto. Qed.

Lemma no_exit_key_col (df : DataFrame) (name : string) :
  no_exit (key_col df name).
Proof. unfold key_col. destruct (get_col df name); simpl; auto. Qed.

Lemma no_exit_num_col (df : DataFrame) (name : string) :
  no_exit (num_col df name).
Proof.
  unfold num_col. destruct (get_col df name) as [[? | ?] |]; simpl; auto.
Qed.

Create HintDb no_exit.
#[local] Hint Resolve no_exit_key_col no_exit_num_col : no_exit.

Ltac no_exit_steps :=
  repeat (apply no_exit_rbind; [auto with no_exit | intros ?]);
  exact I.

Lemma no_exit_groupby_mean (df : DataFrame) (key p c f : string) :
  no_exit (groupby_mean df key p c f).
Proof. unfold groupby_mean. no_exit_steps. Qed.

Lemma no_exit_avg_macros (df : DataFrame) (r : resolved) :
  no_exit (avg_macros df r).
Proof.
  unfold avg_macros. apply no_exit_rbind;
    [apply no_exit_groupby_mean | intros; exact I].
Qed.

Lemma no_exit_top5 (df : DataFrame) (r : resolved) :
  no_exit (top5_by_diet df r).
Proof. unfold top5_by_diet, records. no_exit_steps. Qed.

Lemma no_exit_ratios (df : DataFrame) (r : resolved) :
  no_exit (Protein_to_Carbs_ratio df r)
  /\ no_exit (Carbs_to_Fat_ratio df r).
Proof.
  unfold Protein_to_Carbs_ratio, Carbs_to_Fat_ratio.
  split; no_exit_steps.
Qed.

Lemma no_exit_not_SystemExit {A : Type} (r : result A) (c : Z) :
  no_exit r -> r <> Raise (SystemExit c).
Proof. intros H ->. discriminate H. Qed.

End Abort.

Ltac other_lines Hin :=
  simpl in Hin;
  repeat (destruct Hin as [<- | Hin]; [split; [| intros ?]; discriminate |]);
  destruct Hin.

(** C7: when one of the six required fields resolves to no column, the run
    ends with [SystemExit(1)], a non-zero status, right after printing the
    error line and the full list of the table's columns, and prints no
    aggregate; when all six resolve, the run neither exits that way nor
    prints that report. *)
Theorem missing_column_aborts (df0 : DataFrame) :
  (In None (required df0) ->
     fst (main df0 []) = Raise (SystemExit 1)
     /\ exit_status (fst (main df0 [])) <> 0%Z
     /\ (exists before,
           snd (main df0 [])
           = (before ++ [missing_columns_message;
                         DetectedColumns (columns df0)])%list)
     /\ forall o, In o (snd (main df0 [])) -> is_aggregate o = false)
  /\ (~ In None (required df0) ->
     (forall c, fst (main df0 []) <> Raise (SystemExit c))
     /\ ~ In missing_columns_message (snd (main df0 []))
     /\ forall cols, ~ In (DetectedColumns cols) (snd (main df0 []))).
Proof.
  split.
  - intros Hnone. apply any_none_In in Hnone.
    unfold main, bind, print, raise. cbn [fst snd app].
    rewrite required_clean, Hnone, columns_clean. cbn [fst snd app].
    repeat split.
    + discriminate.
    + eexists. unfold missing_columns_message.
      match goal with
      | |- ?a :: ?b :: ?c :: ?d :: ?e :: ?rest = _ =>
          change (a :: b :: c :: d :: e :: rest)
            with ([a; b; c; d; e] ++ rest)%list
      end.
      reflexivity.
    + intros o Hin. simpl in Hin.
      repeat (destruct Hin as [<- | Hin]; [reflexivity |]). destruct Hin.
  - intros Hall.
    assert (Hfalse : any_none (required df0) = false).
    { destruct (any_none (required df0)) eqn:E; [| reflexivity].
      exfalso. apply Hall. now apply any_none_In. }
    destruct (proj1 (resolve_required df0) Hfalse) as [r Hr].
    pose proof (no_exit_avg_macros (clean df0) r) as Havg.
    pose proof (no_exit_top5 (clean df0) r) as Htop.
    destruct (no_exit_ratios (clean df0) r) as [Hpc Hcf].
    unfold main, bind, print, raise, lift, ret. cbn [fst snd app].
    rewrite required_clean, Hfalse, resolve_clean, Hr. cbn [fst snd app].
    unfold missing_columns_message.
    assert (Hquiet : forall (res : result report) (printed : list out),
               no_exit res ->
               (forall o, In o printed ->
                          o <> Text "ERROR: Could not detect one or more required columns."
                          /\ forall cols, o <> DetectedColumns cols) ->
               (forall c, res <> Raise (SystemExit c))
               /\ ~ In (Text "ERROR: Could not detect one or more required columns.") printed
               /\ forall cols, ~ In (DetectedColumns cols) printed).
    { intros res printed Hres Hout. repeat split.
      - intros c. now apply no_exit_not_SystemExit.
      - intros Hin. now destruct (Hout _ Hin) as [Hne _].
      - intros cols Hin. destruct (Hout _ Hin) as [_ Hne]. now apply (Hne cols). }
    destruct (avg_macros (clean df0) r) as [avg | e1]; cbn [fst snd].
    2: { apply Hquiet; [exact Havg |]. intros o Hin. other_lines Hin. }
    destruct (top5_by_diet (clean df0) r) as [top | e2]; cbn [fst snd].
    2: { apply Hquiet; [exact Htop |]. intros o Hin. other_lines Hin. }
    destruct (Protein_to_Carbs_ratio (clean df0) r) as [pc | e3]; cbn [fst snd].
    2: { apply Hquiet; [exact Hpc |]. intros o Hin. other_lines Hin. }
    destruct (Carbs_to_Fat_ratio (clean df0) r) as [cf | e4]; cbn [fst snd].
    2: { apply Hquiet; [exact Hcf |]. intros o Hin. other_lines Hin. }
    apply Hquiet; [exact I |]. intros o Hin. other_lines Hin.
Qed.

Lemma missing_column_aborts_witness :
  In None (required SampleAbort.no_cuisine)
  /\ fst (main SampleAbort.no_cuisine []) = Raise (SystemExit 1)
  /\ exit_status (fst (main SampleAbort.no_cuisine [])) <> 0%Z.
Proof.
  assert (H : In None (required SampleAbort.no_cuisine))
    by (right; right; left; reflexivity).
  split; [exact H |].
  destruct (proj1 (missing_column_aborts SampleAbort.no_cuisine) H)
    as (Hexit & Hstatus & _).
  split; [exact Hexit | exact Hstatus].
Defined.

(** ** Ratio metrics (claim C4) *)

Section Ratios.

Local Open Scope Qc_scope.

Lemma eqb_zero : Num.eqb 0 0 = true.
Proof. reflexivity. Qed.

Lemma ratio_zero_den (num : option Qc) : ratio num (Some 0) = Undefined.
Proof. destruct num; reflexivity. Qed.

Lemma ratio_missing_den (num : option Qc) : ratio num None = Undefined.
Proof. destruct num; reflexivity. Qed.

Lemma ratio_finite (num den : option Qc) : ratio num den <> Infinite.
Proof.
  unfold ratio, ratio_col, series_div, replace_zero. simpl.
  destruct num as [x |], den as [y |]; simpl; try discriminate.
  destruct (Num.eqb y 0) eqn:E; simpl; [discriminate |].
  rewrite E. discriminate.
Qed.

Lemma nth_ratio_col (ps cs : list (option Qc)) (i : nat) (d : quotient) :
  (i < length ps)%nat -> (i < length cs)%nat ->
  nth i (ratio_col ps cs) d = ratio (nth i ps None) (nth i cs None).
Proof.
  revert cs i. induction ps as [| p ps IH]; intros cs i Hp Hc.
  - inversion Hp.
  - destruct cs as [| c cs]; [inversion Hc |].
    destruct i as [| i]; [reflexivity |].
    simpl in Hp, Hc. apply (IH cs i); lia.
Qed.

Lemma ratio_col_finite (ps cs : list (option Qc)) :
  Forall (fun q => q <> Infinite) (ratio_col ps cs).
Proof.
  revert cs. induction ps as [| p ps IH]; intros cs; [constructor |].
  destruct cs as [| c cs]; [constructor |].
  constructor; [apply (ratio_finite p c) | apply IH].
Qed.

End Ratios.

(** C4: a record whose carbs value is 0 has an undefined protein-to-carbs
    ratio, and one whose fat value is 0 an undefined carbs-to-fat ratio; the
    ratio is a value, never an infinity; with carbs 5 and protein 10 it is
    2.  The two derived columns hold these cells row by row. *)
Theorem zero_denominator_gives_undefined :
  (forall num : option Qc, ratio num (Some 0%Qc) = Undefined)
  /\ (forall num den : option Qc, ratio num den <> Infinite)
  /\ ratio (Sample.n 10) (Sample.n 5) = Defined (Q2Qc (inject_Z 2))
  /\ forall (df : DataFrame) (r : resolved) (ps cs fs : list (option Qc)),
       num_col df (protein_col r) = Ok ps ->
       num_col df (carbs_col r) = Ok cs ->
       num_col df (fat_col r) = Ok fs ->
       Protein_to_Carbs_ratio df r = Ok (ratio_col ps cs)
       /\ Carbs_to_Fat_ratio df r = Ok (ratio_col cs fs)
       /\ Forall (fun q => q <> Infinite) (ratio_col ps cs)
       /\ Forall (fun q => q <> Infinite) (ratio_col cs fs)
       /\ (forall i, (i < length ps)%nat -> nth i cs None = Some 0%Qc ->
                     nth i (ratio_col ps cs) Infinite = Undefined)
       /\ (forall i, (i < length cs)%nat -> nth i fs None = Some 0%Qc ->
                     nth i (ratio_col cs fs) Infinite = Undefined).
Proof.
  split; [exact ratio_zero_den |].
  split; [exact ratio_finite |].
  split.
  { unfold ratio. cbn. f_equal. apply Qc_is_canon. reflexivity. }
  intros df r ps cs fs Hp Hc Hf.
  unfold Protein_to_Carbs_ratio, Carbs_to_Fat_ratio.
  rewrite Hp, Hc, Hf. simpl.
  repeat split; try apply ratio_col_finite.
  - intros i Hi Hz.
    assert (Hlen : (i < length cs)%nat).
    { destruct (Nat.lt_ge_cases i (length cs)) as [H | H]; [exact H |].
      rewrite (nth_overflow cs None H) in Hz. discriminate. }
    rewrite nth_ratio_col by assumption. rewrite Hz. apply ratio_zero_den.
  - intros i Hi Hz.
    assert (Hlen : (i < length fs)%nat).
    { destruct (Nat.lt_ge_cases i (length fs)) as [H | H]; [exact H |].
      rewrite (nth_overflow fs None H) in Hz. discriminate. }
    rewrite nth_ratio_col by assumption. rewrite Hz. apply ratio_zero_den.
Qed.

Lemma zero_denominator_gives_undefined_witness :
  let r := mkResolved "Diet_type" "Recipe_name" "Cuisine_type"
                      "Protein(g)" "Carbs(g)" "Fat(g)" in
  let ps := [Sample.n 10; Sample.n 20; Sample.n 5] in
  let cs := [Sample.n 5; Sample.n 0; Sample.n 4] in
  num_col Sample.three_rows (protein_col r) = Ok ps
  /\ num_col Sample.three_rows (carbs_col r) = Ok cs
  /\ Protein_to_Carbs_ratio Sample.three_rows r = Ok (ratio_col ps cs)
  /\ nth 1 (ratio_col ps cs) Infinite = Undefined.
Proof.
  intros r ps cs.
  destruct zero_denominator_gives_undefined as (_ & _ & _ & H).
  destruct (H Sample.three_rows r ps cs [Sample.n 1; Sample.n 2; Sample.n 3]
              eq_refl eq_refl eq_refl) as (Hpc & _ & _ & _ & Hzero & _).
  split; [reflexivity |]. split; [reflexivity |]. split; [exact Hpc |].
  apply Hzero; [simpl; lia | reflexivity].
Defined.

(** ** Orders: group keys and descending sort *)

Section Orders.

Local Open Scope Qc_scope.

Lemma value_compare_eq (a b : value) : value_compare a b = Eq <-> a = b.
Proof.
  destruct a as [x | s], b as [y | t]; simpl.
  - rewrite <- Qceq_alt. split; [now intros -> | now intros [= ->]].
  - split; discriminate.
  - split; discriminate.
  - split.
    + intros H. apply String.compare_eq_iff in H. now subst.
    + intros [= ->]. pose proof (String.compare_antisym t t) as H.
      destruct (String.compare t t); [reflexivity | |]; discriminate H.
Qed.

Lemma value_compare_refl (a : value) : value_compare a a = Eq.
Proof. now apply value_compare_eq. Qed.

Lemma value_compare_antisym (a b : value) :
  value_compare b a = CompOpp (value_compare a b).
Proof.
  destruct a as [x | s], b as [y | t]; simpl; try reflexivity.
  - unfold Qccompare. now rewrite <- Qcompare_antisym.
  - apply (String.compare_antisym t s).
Qed.

Lemma value_lt_trans (a b c : value) :
  value_lt a b -> value_lt b c -> value_lt a c.
Proof.
  unfold value_lt.
  destruct a as [x | s], b as [y | t], c as [z | u]; simpl;
    try discriminate; try reflexivity.
  - rewrite <- !Qclt_alt. apply Qclt_trans.
  - intros H1 H2.
    apply String_as_OT.cmp_lt in H1. apply String_as_OT.cmp_lt in H2.
    apply String_as_OT.cmp_lt.
    exact (String_as_OT.lt_trans _ _ _ H1 H2).
Qed.

Lemma value_lt_irrefl (a : value) : ~ value_lt a a.
Proof. unfold value_lt. rewrite value_compare_refl. discriminate. Qed.

Lemma value_eqb_eq (a b : value) : value_eqb a b = true <-> a = b.
Proof.
  unfold value_eqb. rewrite <- value_compare_eq.
  destruct (value_compare a b); split; congruence.
Qed.

Lemma value_eqb_refl (a : value) : value_eqb a a = true.
Proof. now apply value_eqb_eq. Qed.

Lemma value_eq_dec (a b : value) : {a = b} + {a <> b}.
Proof.
  destruct (value_eqb a b) eqn:E.
  - left. now apply value_eqb_eq.
  - right. intros H. apply value_eqb_eq in H. congruence.
Qed.

Lemma leb_le (x y : Qc) : Num.leb x y = true <-> x <= y.
Proof.
  unfold Num.leb. split.
  - intros H. apply Qcnot_lt_le. intros Hlt.
    apply Qcgt_alt in Hlt. now rewrite Hlt in H.
  - intros H. destruct (x ?= y) eqn:E; try reflexivity.
    apply Qcgt_alt in E. now apply Qcle_not_lt in H.
Qed.

Lemma geb_desc (a b : option Qc) : Sort.geb a b = true <-> desc a b.
Proof.
  destruct a as [x |], b as [y |]; simpl; try tauto.
  - apply leb_le.
  - split; [discriminate | tauto].
Qed.

Lemma desc_total (a b : option Qc) : desc a b \/ desc b a.
Proof.
  destruct a as [x |], b as [y |]; simpl; auto.
  destruct (Qclt_le_dec x y) as [H | H]; [right; now apply Qclt_le_weak | now left].
Qed.

Lemma desc_trans (a b c : option Qc) : desc a b -> desc b c -> desc a c.
Proof.
  destruct a as [x |], b as [y |], c as [z |]; simpl; try tauto.
  intros H1 H2. now apply Qcle_trans with y.
Qed.

Lemma desc_not_lower (a b : option Qc) : desc a b -> ~ lower a b.
Proof.
  destruct a as [x |], b as [y |]; simpl; try tauto.
  intros H. now apply Qcle_not_lt.
Qed.

End Orders.

(** ** sort_values: a sorted rearrangement *)

Section SortFacts.

Context {A : Type} (by_ : A -> option Qc).

Lemma insert_perm (x : A) (l : list A) :
  Permutation (Sort.insert by_ x l) (x :: l).
Proof.
  induction l as [| y l IH]; simpl; [reflexivity |].
  destruct (Sort.geb (by_ x) (by_ y)); [reflexivity |].
  rewrite IH. apply perm_swap.
Qed.

Lemma sort_desc_perm (l : list A) : Permutation (Sort.sort_desc by_ l) l.
Proof.
  unfold Sort.sort_desc. induction l as [| x l IH]; simpl; [reflexivity |].
  rewrite insert_perm. now constructor.
Qed.

Lemma insert_sorted (x : A) (l : list A) :
  StronglySorted (fun a b => desc (by_ a) (by_ b)) l ->
  StronglySorted (fun a b => desc (by_ a) (by_ b)) (Sort.insert by_ x l).
Proof.
  induction l as [| y l IH]; simpl; intros Hs.
  - constructor; constructor.
  - inversion Hs as [| ? ? Hl Hy]; subst.
    destruct (Sort.geb (by_ x) (by_ y)) eqn:E.
    + apply geb_desc in E. constructor; [assumption |].
      constructor; [assumption |].
      eapply Forall_impl; [| exact Hy].
      intros z Hz. now apply desc_trans with (by_ y).
    + assert (Hyx : desc (by_ y) (by_ x)).
      { destruct (desc_total (by_ x) (by_ y)) as [H | H]; [| assumption].
        apply geb_desc in H. congruence. }
      constructor; [now apply IH |].
      apply Forall_forall. intros z Hz.
      apply (Permutation_in _ (insert_perm x l)) in Hz.
      destruct Hz as [<- | Hz]; [assumption |].
      rewrite Forall_forall in Hy. now apply Hy.
Qed.

Lemma sort_desc_sorted (l : list A) :
  StronglySorted (fun a b => desc (by_ a) (by_ b)) (Sort.sort_desc by_ l).
Proof.
  unfold Sort.sort_desc. induction l as [| x l IH]; simpl.
  - constructor.
  - now apply insert_sorted.
Qed.

End SortFacts.

(** ** groupby: keys and members *)

Section GroupFacts.

Lemma insert_key_In (k x : value) (l : list value) :
  In x (GroupBy.insert_key k l) <-> x = k \/ In x l.
Proof.
  induction l as [| h t IH]; simpl.
  - intuition.
  - destruct (value_compare k h) eqn:E; simpl.
    + apply value_compare_eq in E. subst. intuition.
    + intuition.
    + rewrite IH. intuition.
Qed.

Lemma insert_key_sorted (k : value) (l : list value) :
  StronglySorted value_lt l ->
  StronglySorted value_lt (GroupBy.insert_key k l).
Proof.
  induction l as [| h t IH]; simpl; intros Hs.
  - constructor; constructor.
  - inversion Hs as [| ? ? Ht Hh]; subst.
    destruct (value_compare k h) eqn:E.
    + assumption.
    + constructor; [assumption |]. constructor; [exact E |].
      eapply Forall_impl; [| exact Hh].
      intros z Hz. now apply value_lt_trans with h.
    + constructor; [now apply IH |].
      apply Forall_forall. intros z Hz.
      apply insert_key_In in Hz. destruct Hz as [-> | Hz].
      * unfold value_lt. rewrite value_compare_antisym, E. reflexivity.
      * rewrite Forall_forall in Hh. now apply Hh.
Qed.

Lemma keys_sorted (ks : list (option value)) :
  StronglySorted value_lt (GroupBy.keys ks).
Proof.
  unfold GroupBy.keys.
  induction (Series.dropna ks) as [| k l IH]; simpl.
  - constructor.
  - now apply insert_key_sorted.
Qed.

Lemma dropna_In {A : Type} (xs : list (option A)) (x : A) :
  In x (Series.dropna xs) <-> In (Some x) xs.
Proof.
  induction xs as [| [v |] xs IH]; simpl.
  - tauto.
  - rewrite IH. split; intros [H | H]; auto; left; congruence.
  - rewrite IH. split; [auto | intros [H | H]; [discriminate | assumption]].
Qed.

Lemma keys_In (ks : list (option value)) (k : value) :
  In k (GroupBy.keys ks) <-> In (Some k) ks.
Proof.
  rewrite <- dropna_In. unfold GroupBy.keys.
  induction (Series.dropna ks) as [| x l IH]; simpl; [tauto |].
  rewrite insert_key_In, IH. intuition.
Qed.

Lemma sorted_NoDup (l : list value) : StronglySorted value_lt l -> NoDup l.
Proof.
  induction 1 as [| x l Hs IH Hx]; constructor; [| assumption].
  intros Hin. rewrite Forall_forall in Hx.
  now apply (value_lt_irrefl x), Hx.
Qed.

Lemma keys_NoDup (ks : list (option value)) : NoDup (GroupBy.keys ks).
Proof. apply sorted_NoDup, keys_sorted. Qed.

End GroupFacts.

(** ** The aggregate table (claim C2) *)

Section Aggregate.

Lemma select_members {A : Type} (ks : list (option value)) (xs : list A)
  (k : value) :
  GroupBy.select ks xs k = members ks xs k.
Proof.
  unfold members. revert xs.
  induction ks as [| [k' |] ks IH]; intros [| x xs]; simpl; try reflexivity.
  - destruct (value_eqb k' k); simpl; now rewrite IH.
  - apply IH.
Qed.

Lemma mean_arithmetic (xs : list (option Qc)) :
  Series.mean xs = arithmetic_mean (Series.dropna xs).
Proof. unfold Series.mean, arithmetic_mean. now destruct (Series.dropna xs). Qed.

Lemma num_col_get (df : DataFrame) (name : string) (xs : list (option Qc)) :
  num_col df name = Ok xs <-> get_col df name = Some (NumCol xs).
Proof.
  unfold num_col. destruct (get_col df name) as [[ys | ys] |]; split;
    intros H; try discriminate; congruence.
Qed.

Lemma num_col_key_col (df : DataFrame) (name : string)
  (xs : list (option Qc)) :
  num_col df name = Ok xs -> key_col df name = Ok (cells (NumCol xs)).
Proof. intros H. apply num_col_get in H. unfold key_col. now rewrite H. Qed.

Lemma groupby_mean_ok (df : DataFrame) (key p c f : string)
  (ks : list (option value)) (ps cs fs : list (option Qc)) :
  key_col df key = Ok ks ->
  num_col df p = Ok ps -> num_col df c = Ok cs -> num_col df f = Ok fs ->
  groupby_mean df key p c f = Ok (mean_rows ks ps cs fs).
Proof.
  intros Hk Hp Hc Hf. unfold groupby_mean.
  rewrite Hk, (num_col_key_col _ _ _ Hp), (num_col_key_col _ _ _ Hc),
    (num_col_key_col _ _ _ Hf), Hp, Hc, Hf.
  reflexivity.
Qed.

Lemma mean_rows_diets (ks : list (option value))
  (ps cs fs : list (option Qc)) :
  map a_diet (mean_rows ks ps cs fs) = GroupBy.keys ks.
Proof.
  unfold mean_rows. rewrite map_map. simpl. apply map_id.
Qed.

Lemma mean_rows_means (ks : list (option value))
  (ps cs fs : list (option Qc)) (a : agg_row) :
  In a (mean_rows ks ps cs fs) ->
  a_protein a = group_mean ks ps (a_diet a)
  /\ a_carbs a = group_mean ks cs (a_diet a)
  /\ a_fat a = group_mean ks fs (a_diet a).
Proof.
  unfold mean_rows, group_mean. intros Hin.
  apply in_map_iff in Hin as [k [<- _]]. simpl.
  now rewrite !mean_arithmetic, !select_members.
Qed.

End Aggregate.

(** C2: on a table with the required columns the aggregate holds one row
    per diet type, each with the arithmetic mean of that group's protein,
    carbs and fat values, in descending order of mean protein; on the
    three-row dataset with diet types A, A, B and protein 10, 20, 5 the
    run yields mean protein 15 for A and 5 for B, A before B. *)
Theorem avg_macros_sorted_group_means :
  (forall (df : DataFrame) (r : resolved)
          (ks : list (option value)) (ps cs fs : list (option Qc)),
      key_col df (diet_col r) = Ok ks ->
      num_col df (protein_col r) = Ok ps ->
      num_col df (carbs_col r) = Ok cs ->
      num_col df (fat_col r) = Ok fs ->
      exists t, avg_macros df r = Ok t /\ aggregate_of ks ps cs fs t)
  /\ exists rep,
       fst (main Sample.three_rows []) = Ok rep
       /\ protein_ranking (rep_avg_macros rep)
          = [(VStr "A", Some (15 # 1)%Q); (VStr "B", Some (5 # 1)%Q)].
Proof.
  split.
  - intros df r ks ps cs fs Hk Hp Hc Hf.
    exists (Sort.sort_desc a_protein (mean_rows ks ps cs fs)).
    split.
    + unfold avg_macros.
      now rewrite (groupby_mean_ok _ _ _ _ _ _ _ _ _ Hk Hp Hc Hf).
    + pose proof (sort_desc_perm a_protein (mean_rows ks ps cs fs)) as Hperm.
      assert (Hdiets : Permutation
                         (map a_diet (Sort.sort_desc a_protein
                                        (mean_rows ks ps cs fs)))
                         (GroupBy.keys ks)).
      { rewrite <- (mean_rows_diets ks ps cs fs). now apply Permutation_map. }
      unfold aggregate_of. split; [| split; [| split]].
      * intros k. rewrite <- keys_In. split; intros Hin.
        -- now apply (Permutation_in _ Hdiets).
        -- now apply (Permutation_in _ (Permutation_sym Hdiets)).
      * apply (Permutation_NoDup (Permutation_sym Hdiets)), keys_NoDup.
      * intros a Hin. now apply mean_rows_means, (Permutation_in _ Hperm).
      * apply sort_desc_sorted.
  - eexists. split; vm_compute; reflexivity.
Qed.

Lemma avg_macros_sorted_group_means_witness :
  exists t,
    avg_macros Sample.three_rows canonical_names = Ok t
    /\ aggregate_of
         [Some (VStr "A"); Some (VStr "A"); Some (VStr "B")]
         [Sample.n 10; Sample.n 20; Sample.n 5]
         [Sample.n 5; Sample.n 0; Sample.n 4]
         [Sample.n 1; Sample.n 2; Sample.n 3] t.
Proof.
  apply (proj1 avg_macros_sorted_group_means Sample.three_rows canonical_names);
    reflexivity.
Defined.

(** ** Top protein recipes per diet type (claim C3) *)

Section Head.

Context {A : Type} (key : A -> option value).

Lemma head_In (n : nat) (seen : list value) (l : list A) (x : A) :
  In x (GroupBy.head key n seen l) -> In x l /\ key x <> None.
Proof.
  revert seen. induction l as [| y l IH]; intros seen; simpl; [tauto |].
  destruct (key y) as [k |] eqn:Ek.
  - destruct (length (filter (value_eqb k) seen) <? n)%nat.
    + intros [<- | Hin].
      * split; [now left | congruence].
      * destruct (IH _ Hin). auto.
    + intros Hin. destruct (IH _ Hin). auto.
  - intros Hin. destruct (IH _ Hin). auto.
Qed.

Lemma seen_count_cons (k k' : value) (seen : list value) :
  seen_count k (k' :: seen)
  = ((if value_eqb k k' then 1 else 0) + seen_count k seen)%nat.
Proof. unfold seen_count. simpl. now destruct (value_eqb k k'). Qed.

Lemma value_eqb_sym (a b : value) : value_eqb a b = value_eqb b a.
Proof.
  destruct (value_eqb a b) eqn:E1, (value_eqb b a) eqn:E2; try reflexivity.
  - apply value_eqb_eq in E1. subst. now rewrite value_eqb_refl in E2.
  - apply value_eqb_eq in E2. subst. now rewrite value_eqb_refl in E1.
Qed.

(** At most [n] rows per group, the rows already seen included. *)
Lemma head_count (n : nat) (k : value) (seen : list value) (l : list A) :
  (length (filter (in_group key k) (GroupBy.head key n seen l))
   <= n - seen_count k seen)%nat.
Proof.
  revert seen. induction l as [| y l IH]; intros seen; simpl; [lia |].
  destruct (key y) as [k' |] eqn:Ek; [| apply IH].
  fold (seen_count k' seen).
  specialize (IH (k' :: seen)). rewrite seen_count_cons in IH.
  destruct (seen_count k' seen <? n)%nat eqn:Hlt.
  - apply Nat.ltb_lt in Hlt. simpl. unfold in_group at 1. rewrite Ek.
    rewrite (value_eqb_sym k k') in IH.
    destruct (value_eqb k' k) eqn:E; simpl.
    + apply value_eqb_eq in E. subst k'. lia.
    + lia.
  - lia.
Qed.

(** Once [n] rows of a group are seen, no row of it is kept. *)
Lemma head_full (n : nat) (k : value) (seen : list value) (l : list A)
  (x : A) :
  (n <= seen_count k seen)%nat ->
  In x (GroupBy.head key n seen l) -> key x <> Some k.
Proof.
  revert seen. induction l as [| y l IH]; intros seen Hfull; simpl; [tauto |].
  destruct (key y) as [k' |] eqn:Ek; [| now apply IH].
  fold (seen_count k' seen).
  assert (Hnext : (n <= seen_count k (k' :: seen))%nat)
    by (rewrite seen_count_cons; lia).
  destruct (seen_count k' seen <? n)%nat eqn:Hlt.
  - apply Nat.ltb_lt in Hlt. intros [<- | Hin]; [| now apply (IH (k' :: seen))].
    rewrite Ek. intros [= ->]. lia.
  - now apply IH.
Qed.

(** In a list sorted by [R], a kept row of a group stands in relation [R]
    to every row of the group that was left out. *)
Lemma head_before_excluded (R : A -> A -> Prop) (n : nat) (k : value)
  (seen : list value) (l : list A) (x y : A) :
  StronglySorted R l ->
  In x (GroupBy.head key n seen l) ->
  In y l -> ~ In y (GroupBy.head key n seen l) ->
  key x = Some k -> key y = Some k ->
  R x y.
Proof.
  intros Hs. revert seen.
  induction Hs as [| z l Hs IH Hz]; intros seen Hx Hy Hout Kx Ky;
    [destruct Hy |].
  simpl in Hx, Hout. rewrite Forall_forall in Hz.
  destruct (key z) as [k' |] eqn:Ek.
  - fold (seen_count k' seen) in Hx, Hout.
    destruct (seen_count k' seen <? n)%nat eqn:Hlt.
    + destruct Hx as [<- | Hx].
      * destruct Hy as [-> | Hy]; [exfalso; apply Hout; now left |].
        now apply Hz.
      * destruct Hy as [-> | Hy]; [exfalso; apply Hout; now left |].
        apply (IH (k' :: seen)); auto. intros H. apply Hout. now right.
    + destruct Hy as [-> | Hy].
      * exfalso. apply Nat.ltb_ge in Hlt.
        assert (k' = k) by congruence. subst k'.
        apply (head_full n k (k :: seen) l x); auto.
        rewrite seen_count_cons. lia.
      * apply (IH (k' :: seen)); auto.
  - destruct Hy as [-> | Hy]; [congruence |].
    apply (IH seen); auto.
Qed.

End Head.

(** C3: on a table with the required columns, the selection returns at
    most five records of any diet type, all of them records of the table,
    and no returned record has strictly lower protein than a record of the
    same diet type that was left out. *)
Theorem top5_at_most_five_best (df : DataFrame) (r : resolved)
  (rows : list row) :
  records df r = Ok rows ->
  exists top,
    top5_by_diet df r = Ok top
    /\ (forall k, (length (filter (of_diet k) top) <= 5)%nat)
    /\ (forall x, In x top -> In x rows)
    /\ (forall x y k,
          In x top -> In y rows -> ~ In y top ->
          r_diet x = Some k -> r_diet y = Some k ->
          ~ lower (r_protein x) (r_protein y)).
Proof.
  intros Hrows. exists (top5_of rows).
  pose proof (sort_desc_perm r_protein rows) as Hperm.
  split; [| split; [| split]].
  - unfold top5_by_diet. now rewrite Hrows.
  - intros k. unfold top5_of, of_diet.
    pose proof (head_count r_diet 5 k [] (Sort.sort_desc r_protein rows)) as H.
    simpl in H. exact H.
  - intros x Hx. unfold top5_of in Hx. apply head_In in Hx as [Hx _].
    now apply (Permutation_in _ Hperm).
  - intros x y k Hx Hy Hout Kx Ky.
    apply desc_not_lower.
    apply (head_before_excluded r_diet
             (fun a b => desc (r_protein a) (r_protein b)) 5 k []
             (Sort.sort_desc r_protein rows)); auto.
    + apply sort_desc_sorted.
    + now apply (Permutation_in _ (Permutation_sym Hperm)).
Qed.

Lemma top5_at_most_five_best_witness :
  exists rows,
    records Sample.three_rows canonical_names = Ok rows
    /\ exists top,
         top5_by_diet Sample.three_rows canonical_names = Ok top
         /\ (forall k, (length (filter (of_diet k) top) <= 5)%nat)
         /\ (forall x, In x top -> In x rows)
         /\ (forall x y k,
               In x top -> In y rows -> ~ In y top ->
               r_diet x = Some k -> r_diet y = Some k ->
               ~ lower (r_protein x) (r_protein y)).
Proof.
  eexists. split; [reflexivity |].
  apply top5_at_most_five_best. reflexivity.
Defined.

(** ** The remote fetch job (claims C8, C9, C10) *)

Section Remote.

Lemma distinct_In (l : list value) (x : value) :
  In x (distinct l) <-> In x l.
Proof.
  induction l as [| y l IH]; simpl; [tauto |].
  destruct (existsb (value_eqb y) l) eqn:E.
  - rewrite IH. split; [auto |].
    intros [<- | H]; [| assumption].
    apply existsb_exists in E as [z [Hz Hyz]].
    apply value_eqb_eq in Hyz. now subst.
  - simpl. now rewrite IH.
Qed.

Lemma distinct_NoDup (l : list value) : NoDup (distinct l).
Proof.
  induction l as [| y l IH]; simpl; [constructor |].
  destruct (existsb (value_eqb y) l) eqn:E; [assumption |].
  constructor; [| assumption].
  intros Hin. apply (proj1 (distinct_In l y)) in Hin.
  assert (existsb (value_eqb y) l = true); [| congruence].
  apply existsb_exists. exists y. split; [assumption | apply value_eqb_refl].
Qed.

(** [groupby] forms as many groups as there are distinct keys. *)
Lemma keys_length (ks : list (option value)) :
  length (GroupBy.keys ks) = distinct_count ks.
Proof.
  unfold distinct_count. apply Permutation_length.
  apply NoDup_Permutation.
  - apply keys_NoDup.
  - apply distinct_NoDup.
  - intros k. rewrite keys_In, distinct_In, dropna_In. tauto.
Qed.

Lemma remote_avg_macros_ok (df : DataFrame) (ks : list (option value))
  (ps cs fs : list (option Qc)) :
  remote_columns df ks ps cs fs ->
  remote_avg_macros df = Ok (mean_rows ks ps cs fs).
Proof.
  intros (Hk & Hp & Hc & Hf). now apply groupby_mean_ok.
Qed.

(** The [try] statement never lets an exception of [create_container]
    through. *)
Lemma ensure_container_returns (w : cloud) :
  fst (ensure_container w) = Ok tt.
Proof.
  unfold ensure_container, try_except, bind, create_container, say.
  destruct (reachable w); [| reflexivity].
  destruct (existsb (String.eqb container_name) (c_containers w));
    reflexivity.
Qed.

Lemma ensure_existing_container (w : cloud) :
  reachable w = true -> container_exists w ->
  ensure_container w
  = (Ok tt,
     mkCloud (c_out w ++ ["Container already exists"])%list
             (S (c_requests w)) (c_outages w) (c_containers w)
             (c_blobs w) (c_disk_ok w) (c_files w)).
Proof.
  unfold container_exists. intros Hr Hc.
  unfold ensure_container, try_except, bind, create_container, say.
  now rewrite Hr, Hc.
Qed.

(** The job on a service that holds the container and serves the blob. *)
Lemma process_existing_container (w : cloud) (df : DataFrame)
  (ks : list (option value)) (ps cs fs : list (option Qc)) :
  reachable w = true -> container_exists w ->
  download_ready w df -> remote_columns df ks ps cs fs ->
  process_nutritional_data_from_azurite w
  = (Ok "Data processed and stored successfully.",
     mkCloud (c_out w ++ ["Container already exists"])%list
             (S (S (c_requests w))) (c_outages w) (c_containers w)
             (c_blobs w) (c_disk_ok w)
             ((results_path, JArr (to_records (mean_rows ks ps cs fs)))
                :: c_files w)).
Proof.
  intros Hr Hc (Hnext & Hblob & Hdisk) Hcols.
  unfold process_nutritional_data_from_azurite, bind.
  rewrite (ensure_existing_container w Hr Hc).
  unfold fetch_and_summarize, bind, download_csv, lift, dump_json, ret.
  unfold reachable in *. cbn [c_requests c_outages c_containers c_blobs
                               c_disk_ok c_files c_out sent] in *.
  unfold container_exists in Hc.
  rewrite Hnext, Hc, Hblob, (remote_avg_macros_ok df ks ps cs fs Hcols).
  cbn [c_requests c_outages c_containers c_blobs c_disk_ok c_files c_out sent].
  now rewrite Hdisk.
Qed.

End Remote.

(** C8: when the container already exists, [create_container] raises
    "already exists", the [try] statement takes it as success and the job
    goes on to the download; once the blob is served and the file written,
    the JSON array has as many records as the downloaded dataset has
    distinct diet types. *)
Theorem existing_container_is_success (w : cloud) :
  reachable w = true -> container_exists w ->
  fst (create_container container_name w) = Raise ResourceExistsError
  /\ fst (ensure_container w) = Ok tt
  /\ process_nutritional_data_from_azurite w
     = fetch_and_summarize (snd (ensure_container w))
  /\ forall (df : DataFrame) (ks : list (option value))
            (ps cs fs : list (option Qc)),
       download_ready w df -> remote_columns df ks ps cs fs ->
       fst (process_nutritional_data_from_azurite w)
       = Ok "Data processed and stored successfully."
       /\ exists items,
            written_array (snd (process_nutritional_data_from_azurite w))
            = Some items
            /\ length items = distinct_count ks.
Proof.
  intros Hr Hc. split; [| split; [| split]].
  - unfold create_container. unfold container_exists in Hc. now rewrite Hr, Hc.
  - apply ensure_container_returns.
  - unfold process_nutritional_data_from_azurite, bind.
    now rewrite (ensure_existing_container w Hr Hc).
  - intros df ks ps cs fs Hready Hcols.
    rewrite (process_existing_container w df ks ps cs fs Hr Hc Hready Hcols).
    split; [reflexivity |].
    exists (to_records (mean_rows ks ps cs fs)). split.
    + reflexivity.
    + unfold to_records, mean_rows. rewrite !length_map. apply keys_length.
Qed.

Lemma existing_container_is_success_witness :
  let w := SampleCloud.provisioned Sample.three_rows [] in
  reachable w = true /\ container_exists w
  /\ fst (create_container container_name w) = Raise ResourceExistsError
  /\ fst (process_nutritional_data_from_azurite w)
     = Ok "Data processed and stored successfully."
  /\ exists items,
       written_array (snd (process_nutritional_data_from_azurite w))
       = Some items
       /\ length items = 2%nat.
Proof.
  intros w.
  assert (Hr : reachable w = true) by reflexivity.
  assert (Hc : container_exists w) by reflexivity.
  destruct (existing_container_is_success w Hr Hc) as (Hraise & _ & _ & Hrun).
  destruct (Hrun Sample.three_rows
              [Some (VStr "A"); Some (VStr "A"); Some (VStr "B")]
              [Sample.n 10; Sample.n 20; Sample.n 5]
              [Sample.n 5; Sample.n 0; Sample.n 4]
              [Sample.n 1; Sample.n 2; Sample.n 3])
    as (Hok & items & Hfile & Hlen).
  - repeat split.
  - repeat split.
  - split; [exact Hr |]. split; [exact Hc |]. split; [exact Hraise |].
    split; [exact Hok |]. exists items. split; [exact Hfile | exact Hlen].
Defined.

(** C10: the JSON array holds one record per distinct diet type of the
    dataset, in strictly ascending order of the diet-type key; the
    pipeline's table of the same dataset may come in another order (by
    descending mean protein). *)
Theorem remote_records_ascend_by_diet_type :
  (forall (w : cloud) (df : DataFrame) (ks : list (option value))
          (ps cs fs : list (option Qc)),
      reachable w = true -> container_exists w ->
      download_ready w df -> remote_columns df ks ps cs fs ->
      exists items diets,
        written_array (snd (process_nutritional_data_from_azurite w))
        = Some items
        /\ map json_diet items = map (fun k => Some (json_of_value k)) diets
        /\ StronglySorted value_lt diets
        /\ forall k, In k diets <-> In (Some k) ks)
  /\ exists t_remote t_pipeline,
       remote_avg_macros SampleCloud.b_richer = Ok t_remote
       /\ pipeline_avg_macros SampleCloud.b_richer = Ok t_pipeline
       /\ map a_diet t_remote = [VStr "A"; VStr "B"]
       /\ map a_diet t_pipeline = [VStr "B"; VStr "A"].
Proof.
  split.
  - intros w df ks ps cs fs Hr Hc Hready Hcols.
    exists (to_records (mean_rows ks ps cs fs)), (GroupBy.keys ks).
    rewrite (process_existing_container w df ks ps cs fs Hr Hc Hready Hcols).
    split; [reflexivity |]. split; [| split].
    + unfold to_records, mean_rows. rewrite !map_map. reflexivity.
    + apply keys_sorted.
    + intros k. apply keys_In.
  - eexists. eexists.
    split; [vm_compute; reflexivity |].
    split; [vm_compute; reflexivity |].
    split; vm_compute; reflexivity.
Qed.

Lemma remote_records_ascend_by_diet_type_witness :
  exists items diets,
    written_array
      (snd (process_nutritional_data_from_azurite
              (SampleCloud.provisioned SampleCloud.b_richer [])))
    = Some items
    /\ map json_diet items = map (fun k => Some (json_of_value k)) diets
    /\ StronglySorted value_lt diets
    /\ forall k,
         In k diets
         <-> In (Some k) [Some (VStr "A"); Some (VStr "B"); Some (VStr "B")].
Proof.
  apply (proj1 remote_records_ascend_by_diet_type
           (SampleCloud.provisioned SampleCloud.b_richer [])
           SampleCloud.b_richer
           [Some (VStr "A"); Some (VStr "B"); Some (VStr "B")]
           [Sample.n 5; Sample.n 20; Sample.n 30]
           [Sample.n 5; Sample.n 1; Sample.n 4]
           [Sample.n 1; Sample.n 2; Sample.n 3]);
    repeat split.
Defined.

(** C9 fails on the code: a connection failure while the container is set
    up is caught by the same handler as "already exists"; the job prints
    "Container already exists" and carries on to a successful end. *)
Theorem connection_failure_at_setup_is_swallowed :
  fst (create_container container_name SampleCloud.first_request_lost)
  = Raise ServiceRequestError
  /\ fst (ensure_container SampleCloud.first_request_lost) = Ok tt
  /\ c_out (snd (ensure_container SampleCloud.first_request_lost))
     = ["Container already exists"]
  /\ fst (process_nutritional_data_from_azurite SampleCloud.first_request_lost)
     = Ok "Data processed and stored successfully.".
Proof. repeat split. Qed.

(** A failure to connect for the download is not caught. *)
Lemma connection_failure_at_download_propagates (w : cloud) :
  reachable (snd (ensure_container w)) = false ->
  fst (process_nutritional_data_from_azurite w) = Raise ServiceRequestError.
Proof.
  intros Hdown.
  unfold process_nutritional_data_from_azurite, bind.
  pose proof (ensure_container_returns w) as Hok.
  destruct (ensure_container w) as [res w1]. simpl in Hok, Hdown. subst res.
  unfold fetch_and_summarize, bind, download_csv. now rewrite Hdown.
Qed.

(** ** The two aggregators compared (claim C5) *)

Section Compared.

Lemma get_col_has_col (df : DataFrame) (name : string) (c : column) :
  get_col df name = Some c -> has_col df name = true.
Proof.
  intros H. apply has_col_In. apply get_col_In in H.
  unfold columns. apply in_map_iff. now exists (name, c).
Qed.

Lemma key_col_has_col (df : DataFrame) (name : string)
  (ks : list (option value)) :
  key_col df name = Ok ks -> has_col df name = true.
Proof.
  unfold key_col. destruct (get_col df name) eqn:E; [| discriminate].
  intros _. now apply get_col_has_col with c.
Qed.

Lemma num_col_has_col (df : DataFrame) (name : string)
  (xs : list (option Qc)) :
  num_col df name = Ok xs -> has_col df name = true.
Proof.
  intros H. apply num_col_get in H. now apply get_col_has_col with (NumCol xs).
Qed.

Lemma clean_column_complete (c : column) : complete c -> clean_column c = c.
Proof.
  destruct c as [xs | xs]; simpl; [| reflexivity].
  intros H. unfold imputed. now rewrite H.
Qed.

Lemma get_col_clean_complete (df : DataFrame) (name : string) (c : column) :
  wf_frame df -> get_col df name = Some c -> complete c ->
  get_col (clean df) name = Some c.
Proof.
  intros Hwf Hget Hc. rewrite get_col_clean by assumption.
  rewrite Hget. simpl. now rewrite clean_column_complete.
Qed.

Lemma key_col_clean_complete (df : DataFrame) (name : string)
  (ks : list (option value)) :
  wf_frame df ->
  (forall c, get_col df name = Some c -> complete c) ->
  key_col df name = Ok ks -> key_col (clean df) name = Ok ks.
Proof.
  intros Hwf Hc. unfold key_col.
  destruct (get_col df name) as [c |] eqn:E; [| discriminate].
  now rewrite (get_col_clean_complete df name c Hwf E (Hc c eq_refl)).
Qed.

Lemma num_col_clean_complete (df : DataFrame) (name : string)
  (xs : list (option Qc)) :
  wf_frame df ->
  (forall c, get_col df name = Some c -> complete c) ->
  num_col df name = Ok xs -> num_col (clean df) name = Ok xs.
Proof.
  intros Hwf Hc H. apply num_col_get in H. apply num_col_get.
  now apply get_col_clean_complete; [| | apply Hc].
Qed.

(** A frame with the job's four headers resolves to them. *)
Lemma resolve_remote_names (df : DataFrame) (r : resolved)
  (ks : list (option value)) (ps cs fs : list (option Qc)) :
  remote_columns df ks ps cs fs -> resolve df = Some r ->
  diet_col r = "Diet_type" /\ protein_col r = "Protein(g)"
  /\ carbs_col r = "Carbs(g)" /\ fat_col r = "Fat(g)".
Proof.
  intros (Hk & Hp & Hc & Hf).
  apply key_col_has_col in Hk. apply num_col_has_col in Hp.
  apply num_col_has_col in Hc. apply num_col_has_col in Hf.
  unfold resolve, diet_names, protein_names, carbs_names, fat_names.
  cbn [pick_col]. rewrite Hk, Hp, Hc, Hf.
  destruct (pick_col df recipe_names), (pick_col df cuisine_names);
    try discriminate.
  intros [= <-]. repeat split.
Qed.

End Compared.

(** C5, as amended: for every dataset the pipeline accepts that carries
    the headers Diet_type, Protein(g), Carbs(g) and Fat(g) and has no
    missing value in those of the four columns that are numeric, the remote
    job computes the per-diet means of the pipeline's aggregate table: the
    pipeline's table is the job's, sorted by descending mean protein. *)
Theorem remote_matches_pipeline_on_complete_data (df : DataFrame)
  (r : resolved) (ks : list (option value)) (ps cs fs : list (option Qc)) :
  wf_frame df ->
  resolve df = Some r ->
  remote_columns df ks ps cs fs ->
  remote_inputs_complete df ->
  exists t,
    remote_avg_macros df = Ok t
    /\ pipeline_avg_macros df = Ok (Sort.sort_desc a_protein t)
    /\ Permutation (Sort.sort_desc a_protein t) t.
Proof.
  intros Hwf Hres Hcols Hcomplete.
  exists (mean_rows ks ps cs fs).
  split; [now apply remote_avg_macros_ok |].
  split; [| apply sort_desc_perm].
  destruct (resolve_remote_names df r ks ps cs fs Hcols Hres)
    as (Ed & Ep & Ec & Ef).
  destruct Hcols as (Hk & Hp & Hc & Hf).
  unfold pipeline_avg_macros, avg_macros.
  rewrite resolve_clean, Hres, Ed, Ep, Ec, Ef.
  rewrite (groupby_mean_ok (clean df) "Diet_type" "Protein(g)" "Carbs(g)"
             "Fat(g)" ks ps cs fs).
  - reflexivity.
  - apply key_col_clean_complete; auto.
    intros c. apply Hcomplete. simpl. auto.
  - apply num_col_clean_complete; auto.
    intros c. apply Hcomplete. simpl. auto.
  - apply num_col_clean_complete; auto.
    intros c. apply Hcomplete. simpl. auto.
  - apply num_col_clean_complete; auto.
    intros c. apply Hcomplete. simpl. auto.
Qed.

Lemma remote_matches_pipeline_on_complete_data_witness :
  wf_frame Sample.three_rows
  /\ resolve Sample.three_rows = Some canonical_names
  /\ remote_inputs_complete Sample.three_rows
  /\ exists t,
       remote_avg_macros Sample.three_rows = Ok t
       /\ pipeline_avg_macros Sample.three_rows
          = Ok (Sort.sort_desc a_protein t)
       /\ Permutation (Sort.sort_desc a_protein t) t.
Proof.
  assert (Hwf : wf_frame Sample.three_rows) by distinct_names.
  assert (Hres : resolve Sample.three_rows = Some canonical_names)
    by reflexivity.
  assert (Hcomplete : remote_inputs_complete Sample.three_rows).
  { intros name c Hin Hget. simpl in Hin.
    destruct Hin as [<- | [<- | [<- | [<- | []]]]];
      injection Hget as <-; reflexivity. }
  split; [exact Hwf |]. split; [exact Hres |]. split; [exact Hcomplete |].
  apply (remote_matches_pipeline_on_complete_data
           Sample.three_rows canonical_names
           [Some (VStr "A"); Some (VStr "A"); Some (VStr "B")]
           [Sample.n 10; Sample.n 20; Sample.n 5]
           [Sample.n 5; Sample.n 0; Sample.n 4]
           [Sample.n 1; Sample.n 2; Sample.n 3] Hwf Hres);
    [repeat split | exact Hcomplete].
Defined.

(** C5 as stated fails: the job does not clean.  With protein 10, missing,
    30 over diet types A, A, B the pipeline first fills the gap with the
    column mean 20 and reports mean protein 15 for A; the job skips the
    gap and reports 10. *)
Lemma remote_skips_cleaning :
  ~ (forall df : DataFrame, wf_frame df -> remote_matches_pipeline df).
Proof.
  intros H.
  assert (Hwf : wf_frame Sample.with_gap) by distinct_names.
  destruct (H Sample.with_gap Hwf _ eq_refl) as (t' & Hremote & Hperm).
  vm_compute in Hremote. injection Hremote as <-.
  apply (Permutation_map (fun a => option_map this (a_protein a))) in Hperm.
  vm_compute in Hperm.
  apply Permutation_in with (x := Some (15 # 1)%Q) in Hperm;
    [| right; left; reflexivity].
  destruct Hperm as [E | [E | []]]; discriminate E.
Qed.

(** ** The run as a whole *)

(** What a completed run reports is what the steps compute on the cleaned
    frame under the resolved names. *)
Lemma main_report (df0 : DataFrame) (rep : report) :
  fst (main df0 []) = Ok rep ->
  exists r,
    resolve df0 = Some r
    /\ avg_macros (clean df0) r = Ok (rep_avg_macros rep)
    /\ top5_by_diet (clean df0) r = Ok (rep_top5 rep)
    /\ Protein_to_Carbs_ratio (clean df0) r = Ok (rep_protein_to_carbs rep)
    /\ Carbs_to_Fat_ratio (clean df0) r = Ok (rep_carbs_to_fat rep)
    /\ pipeline_avg_macros df0 = Ok (rep_avg_macros rep).
Proof.
  unfold main, pipeline_avg_macros, bind, print, raise, lift, ret.
  cbn [fst snd app].
  rewrite required_clean, resolve_clean.
  destruct (any_none (required df0)); [discriminate |].
  destruct (resolve df0) as [r |] eqn:Hr; [| discriminate].
  cbn [fst snd app].
  destruct (avg_macros (clean df0) r) as [avg | e] eqn:Havg; [| discriminate].
  cbn [fst snd app].
  destruct (top5_by_diet (clean df0) r) as [top | e] eqn:Htop; [| discriminate].
  cbn [fst snd app].
  destruct (Protein_to_Carbs_ratio (clean df0) r) as [pc | e] eqn:Hpc;
    [| discriminate].
  cbn [fst snd app].
  destruct (Carbs_to_Fat_ratio (clean df0) r) as [cf | e] eqn:Hcf;
    [| discriminate].
  cbn [fst snd app].
  intros [= <-]. exists r. simpl. repeat split; assumption.
Qed.

(** The selection on eight rows: the single B recipe and the five richest
    of the seven A recipes. *)
Example top5_eight_rows :
  SampleTop.row_numbers (top5_by_diet SampleTop.eight_rows canonical_names)
  = Some [3; 7; 6; 5; 4; 2]%nat.
Proof. reflexivity. Qed.

(** The aggregate of the three-row dataset, and its first ratio column. *)
Example three_rows_report :
  exists rep,
    fst (main Sample.three_rows []) = Ok rep
    /\ exit_status (fst (main Sample.three_rows [])) = 0%Z
    /\ protein_ranking (rep_avg_macros rep)
       = [(VStr "A", Some (15 # 1)%Q); (VStr "B", Some (5 # 1)%Q)]
    /\ nth 1 (rep_protein_to_carbs rep) Infinite = Undefined.
Proof. eexists. repeat split; vm_compute; reflexivity. Qed.

(* ------------------------------------------------------------------ *)
(** * Further properties *)

(** ** The cleaning step on the whole frame *)

Section CleanFrame.

Lemma get_col_None (df : DataFrame) (name : string) :
  get_col df name = None <-> ~ In name (columns df).
Proof.
  unfold columns. induction df as [| [n c] rest IH]; simpl; [tauto |].
  destruct (String.eqb_spec n name) as [-> | Hne].
  - split; [discriminate | intros H; exfalso; apply H; now left].
  - rewrite IH. tauto.
Qed.

Lemma get_col_map (f : column -> column) (df : DataFrame) (name : string) :
  get_col (map (fun nc => (fst nc, f (snd nc))) df) name
  = option_map f (get_col df name).
Proof.
  induction df as [| [n c] rest IH]; simpl; [reflexivity |].
  destruct (n =? name)%string; [reflexivity | exact IH].
Qed.

(** Frames with the same distinct headers and the same column under
    every name are the same frame. *)
Lemma frame_ext (df df' : DataFrame) :
  columns df = columns df' -> wf_frame df ->
  (forall name, get_col df name = get_col df' name) ->
  df = df'.
Proof.
  unfold wf_frame, columns. revert df'.
  induction df as [| [n c] rest IH]; intros [| [n' c'] rest']; simpl;
    try discriminate; [reflexivity |].
  intros [= <- Hcols] Hnd Hget.
  inversion Hnd as [| ? ? Hn Hrest]; subst.
  pose proof (Hget n) as Hhead. simpl in Hhead.
  rewrite String.eqb_refl in Hhead. injection Hhead as <-.
  f_equal. apply IH; auto.
  intros name. destruct (String.eqb_spec n name) as [<- | Hne].
  - transitivity (@None column); [| symmetry]; apply get_col_None.
    + exact Hn.
    + unfold columns. now rewrite <- Hcols.
  - specialize (Hget name). simpl in Hget.
    apply String.eqb_neq in Hne. now rewrite Hne in Hget.
Qed.

Lemma columns_map_snd (f : column -> column) (df : DataFrame) :
  columns (map (fun nc => (fst nc, f (snd nc))) df) = columns df.
Proof. unfold columns. rewrite map_map. reflexivity. Qed.

(** The loop as one pass over the columns. *)
Lemma clean_as_map (df : DataFrame) :
  wf_frame df ->
  clean df = map (fun nc => (fst nc, clean_column (snd nc))) df.
Proof.
  intros Hwf. apply frame_ext.
  - now rewrite columns_clean, columns_map_snd.
  - unfold wf_frame. now rewrite columns_clean.
  - intros name. now rewrite get_col_clean, get_col_map.
Qed.

Lemma any_na_fill (m : Qc) (xs : list (option Qc)) :
  Series.any_na (map (fill_with m) xs) = false.
Proof.
  unfold Series.any_na. induction xs as [| [v |] xs IH]; simpl; auto.
Qed.

Lemma imputed_complete (xs : list (option Qc)) :
  Series.any_na xs = false -> imputed xs = xs.
Proof. intros H. unfold imputed. now rewrite H. Qed.

(** One pass either changes nothing or leaves no missing cell. *)
Lemma imputed_cases (xs : list (option Qc)) :
  imputed xs = xs \/ Series.any_na (imputed xs) = false.
Proof.
  unfold imputed. destruct (Series.any_na xs) eqn:Hany; [| now left].
  unfold Series.fillna. destruct (Series.mean xs) as [m |]; [| now left].
  right. apply any_na_fill.
Qed.

Lemma imputed_fixed (xs : list (option Qc)) : imputed (imputed xs) = imputed xs.
Proof.
  destruct (imputed_cases xs) as [E | E].
  - now rewrite E.
  - now apply imputed_complete.
Qed.

Lemma clean_column_fixed (c : column) :
  clean_column (clean_column c) = clean_column c.
Proof. destruct c; simpl; [now rewrite imputed_fixed | reflexivity]. Qed.

Lemma imputed_length (xs : list (option Qc)) :
  length (imputed xs) = length xs.
Proof.
  unfold imputed. destruct (Series.any_na xs); [| reflexivity].
  unfold Series.fillna. destruct (Series.mean xs); [apply length_map | reflexivity].
Qed.

Lemma imputed_keeps_present (xs : list (option Qc)) (i : nat) (v : Qc) :
  nth i xs None = Some v -> nth i (imputed xs) None = Some v.
Proof.
  unfold imputed. destruct (Series.any_na xs); [| auto].
  unfold Series.fillna. destruct (Series.mean xs) as [m |]; [| auto].
  revert i. induction xs as [| x xs IH]; intros [| i]; simpl; try discriminate.
  - now intros ->.
  - apply IH.
Qed.


End CleanFrame.

(** X1: cleaning keeps the headers and their order, leaves every text
    column as it is, and in a numeric column keeps the length and every
    value that was present. *)
Theorem clean_keeps_shape_and_values (df : DataFrame) :
  wf_frame df ->
  columns (clean df) = columns df
  /\ (forall name xs,
        get_col df name = Some (ObjCol xs) ->
        get_col (clean df) name = Some (ObjCol xs))
  /\ (forall name xs,
        get_col df name = Some (NumCol xs) ->
        exists xs',
          get_col (clean df) name = Some (NumCol xs')
          /\ length xs' = length xs
          /\ forall i v, nth i xs None = Some v -> nth i xs' None = Some v).
Proof.
  intros Hwf. split; [apply columns_clean |]. split.
  - intros name xs H. rewrite get_col_clean by assumption. now rewrite H.
  - intros name xs H. exists (imputed xs). split; [| split].
    + rewrite get_col_clean by assumption. now rewrite H.
    + apply imputed_length.
    + intros i v. apply imputed_keeps_present.
Qed.

Lemma clean_keeps_shape_and_values_witness :
  wf_frame SampleClean.gaps
  /\ columns (clean SampleClean.gaps) = columns SampleClean.gaps
  /\ get_col (clean SampleClean.gaps) "Diet_type"
     = Some (ObjCol [Some "A"; None; Some "B"]).
Proof.
  assert (Hwf : wf_frame SampleClean.gaps) by distinct_names.
  destruct (clean_keeps_shape_and_values SampleClean.gaps Hwf)
    as (Hcols & Hobj & _).
  split; [exact Hwf |]. split; [exact Hcols |].
  apply Hobj. reflexivity.
Defined.

(** X2: cleaning a cleaned frame changes nothing. *)
Theorem clean_idempotent (df : DataFrame) :
  wf_frame df -> clean (clean df) = clean df.
Proof.
  intros Hwf.
  assert (Hwf' : wf_frame (clean df))
    by (unfold wf_frame; now rewrite columns_clean).
  rewrite (clean_as_map (clean df) Hwf'), (clean_as_map df Hwf).
  rewrite map_map. apply map_ext. intros [n c]. simpl.
  now rewrite clean_column_fixed.
Qed.

Lemma clean_idempotent_witness :
  wf_frame SampleClean.gaps
  /\ clean (clean SampleClean.gaps) = clean SampleClean.gaps.
Proof.
  assert (Hwf : wf_frame SampleClean.gaps) by distinct_names.
  split; [exact Hwf | exact (clean_idempotent SampleClean.gaps Hwf)].
Defined.

Section MissingReport.





End MissingReport.



(** ** Resolved names *)

Section ResolvedNames.

Lemma pick_col_In (df : DataFrame) (cands : list string) (s : string) :
  pick_col df cands = Some s -> In s cands /\ In s (columns df).
Proof.
  intros H. pose proof (pick_col_first df cands) as Hf.
  rewrite H in Hf. simpl in Hf.
  destruct Hf as (before & after & -> & Hin & _).
  split; [| assumption]. apply in_or_app. right. now left.
Qed.

Lemma disjoint_names_neq (l1 l2 : list string) (a b : string) :
  disjoint_names l1 l2 = true -> In a l1 -> In b l2 -> a <> b.
Proof.
  unfold disjoint_names. intros Hd Ha Hb ->.
  rewrite forallb_forall in Hd. specialize (Hd b Ha).
  apply negb_true_iff in Hd.
  assert (existsb (String.eqb b) l2 = true); [| congruence].
  apply existsb_exists. exists b. split; [assumption | apply String.eqb_refl].
Qed.

End ResolvedNames.

(** X4: when all six fields resolve, the six names are columns of the
    table and no two of them are the same column. *)
Theorem resolved_names_distinct_columns (df : DataFrame) (r : resolved) :
  resolve df = Some r ->
  NoDup (resolved_names r)
  /\ forall name, In name (resolved_names r) -> In name (columns df).
Proof.
  unfold resolve.
  destruct (pick_col df diet_names) as [d |] eqn:Hd; [| discriminate].
  destruct (pick_col df recipe_names) as [rc |] eqn:Hr; [| discriminate].
  destruct (pick_col df cuisine_names) as [c |] eqn:Hc; [| discriminate].
  destruct (pick_col df protein_names) as [p |] eqn:Hp; [| discriminate].
  destruct (pick_col df carbs_names) as [cb |] eqn:Hcb; [| discriminate].
  destruct (pick_col df fat_names) as [f |] eqn:Hf; [| discriminate].
  intros [= <-]. unfold resolved_names. simpl.
  apply pick_col_In in Hd as [Hd Hd']. apply pick_col_In in Hr as [Hr Hr'].
  apply pick_col_In in Hc as [Hc Hc']. apply pick_col_In in Hp as [Hp Hp'].
  apply pick_col_In in Hcb as [Hcb Hcb']. apply pick_col_In in Hf as [Hf Hf'].
  split.
  - pose proof (disjoint_names_neq diet_names recipe_names d rc eq_refl Hd Hr).
    pose proof (disjoint_names_neq diet_names cuisine_names d c eq_refl Hd Hc).
    pose proof (disjoint_names_neq diet_names protein_names d p eq_refl Hd Hp).
    pose proof (disjoint_names_neq diet_names carbs_names d cb eq_refl Hd Hcb).
    pose proof (disjoint_names_neq diet_names fat_names d f eq_refl Hd Hf).
    pose proof (disjoint_names_neq recipe_names cuisine_names rc c eq_refl Hr Hc).
    pose proof (disjoint_names_neq recipe_names protein_names rc p eq_refl Hr Hp).
    pose proof (disjoint_names_neq recipe_names carbs_names rc cb eq_refl Hr Hcb).
    pose proof (disjoint_names_neq recipe_names fat_names rc f eq_refl Hr Hf).
    pose proof (disjoint_names_neq cuisine_names protein_names c p eq_refl Hc Hp).
    pose proof (disjoint_names_neq cuisine_names carbs_names c cb eq_refl Hc Hcb).
    pose proof (disjoint_names_neq cuisine_names fat_names c f eq_refl Hc Hf).
    pose proof (disjoint_names_neq protein_names carbs_names p cb eq_refl Hp Hcb).
    pose proof (disjoint_names_neq protein_names fat_names p f eq_refl Hp Hf).
    pose proof (disjoint_names_neq carbs_names fat_names cb f eq_refl Hcb Hf).
    repeat (constructor; [simpl; intuition congruence |]). constructor.
  - intros name [<- | [<- | [<- | [<- | [<- | [<- | []]]]]]]; assumption.
Qed.

Lemma resolved_names_distinct_columns_witness :
  resolve Sample.three_rows = Some canonical_names
  /\ NoDup (resolved_names canonical_names).
Proof.
  split; [reflexivity |].
  exact (proj1 (resolved_names_distinct_columns
                  Sample.three_rows canonical_names eq_refl)).
Defined.

(** ** Ratios, cell by cell *)

Section RatioCells.

Local Open Scope Qc_scope.


End RatioCells.



(** ** The diet type of highest mean protein *)

Section Highest.

Local Open Scope Qc_scope.

Lemma idxmax_from_spec (t : list agg_row) :
  forall best k m,
    idxmax_from best t = Some (k, m) ->
    (best = Some (k, m)
     \/ exists a, In a t /\ a_diet a = k /\ a_protein a = Some m)
    /\ (forall kb mb, best = Some (kb, mb) -> mb <= m)
    /\ (forall b m', In b t -> a_protein b = Some m' -> m' <= m).
Proof.
  induction t as [| a rest IH]; intros best k m H; simpl in H.
  - subst best. split; [now left |]. split.
    + intros kb mb [= _ ->]. apply Qcle_refl.
    + intros b m' [].
  - destruct (a_protein a) as [ma |] eqn:Ea.
    + destruct best as [[kb mb] |].
      * destruct (Num.leb ma mb) eqn:El.
        -- destruct (IH _ _ _ H) as (Hsrc & Hbest & Hall).
           split; [| split].
           ++ destruct Hsrc as [E | (x & Hx & Hk & Hm)]; [now left |].
              right. exists x. auto using in_cons.
           ++ exact Hbest.
           ++ intros b m' [<- | Hb] Eb; [| now apply (Hall b)].
              rewrite Ea in Eb. injection Eb as <-.
              apply leb_le in El.
              apply Qcle_trans with mb; [exact El | now apply (Hbest kb)].
        -- destruct (IH _ _ _ H) as (Hsrc & Hbest & Hall).
           assert (Hlt : mb <= ma).
           { destruct (Qclt_le_dec mb ma) as [Hlt | Hle];
               [now apply Qclt_le_weak |].
             apply leb_le in Hle. congruence. }
           split; [| split].
           ++ right. destruct Hsrc as [[= <- <-] | (x & Hx & Hk & Hm)].
              ** exists a. auto using in_eq.
              ** exists x. auto using in_cons.
           ++ intros kb' mb' [= _ <-].
              apply Qcle_trans with ma; [exact Hlt |].
              now apply (Hbest (a_diet a)).
           ++ intros b m' [<- | Hb] Eb; [| now apply (Hall b)].
              rewrite Ea in Eb. injection Eb as <-.
              now apply (Hbest (a_diet a)).
      * destruct (IH _ _ _ H) as (Hsrc & Hbest & Hall).
        split; [| split].
        -- right. destruct Hsrc as [[= <- <-] | (x & Hx & Hk & Hm)].
           ++ exists a. auto using in_eq.
           ++ exists x. auto using in_cons.
        -- intros kb mb Hb. discriminate Hb.
        -- intros b m' [<- | Hb] Eb; [| now apply (Hall b)].
           rewrite Ea in Eb. injection Eb as <-.
           now apply (Hbest (a_diet a)).
    + destruct (IH _ _ _ H) as (Hsrc & Hbest & Hall).
      split; [| split].
      * destruct Hsrc as [E | (x & Hx & Hk & Hm)]; [now left |].
        right. exists x. auto using in_cons.
      * exact Hbest.
      * intros b m' [<- | Hb] Eb; [congruence | now apply (Hall b)].
Qed.

Lemma idxmax_from_none (t : list agg_row) :
  forall best,
    idxmax_from best t = None
    <-> best = None /\ forall a, In a t -> a_protein a = None.
Proof.
  induction t as [| a rest IH]; intros best; simpl.
  - split; [intros ->; split; [reflexivity | intros a []] | now intros [-> _]].
  - destruct (a_protein a) as [ma |] eqn:Ea.
    + destruct best as [[kb mb] |].
      * destruct (Num.leb ma mb); rewrite IH;
          (split; [intros [H _]; discriminate H | intros [H _]; discriminate H]).
      * rewrite IH. split; [intros [H _]; discriminate H |].
        intros [_ H]. specialize (H a (or_introl eq_refl)). congruence.
    + rewrite IH. split.
      * intros [-> H]. split; [reflexivity |].
        intros b [<- | Hb]; [assumption | now apply H].
      * intros [-> H]. split; [reflexivity |]. intros b Hb. apply H. now right.
Qed.

Lemma idxmax_from_dominated (t : list agg_row) (k : value) (m : Qc) :
  Forall (fun b => desc (Some m) (a_protein b)) t ->
  idxmax_from (Some (k, m)) t = Some (k, m).
Proof.
  induction 1 as [| b rest Hb Hrest IH]; simpl; [reflexivity |].
  destruct (a_protein b) as [mb |]; [| exact IH].
  simpl in Hb. apply leb_le in Hb. now rewrite Hb.
Qed.

End Highest.

(** X6: the diet type reported as highest in protein is a row of the
    aggregate table whose mean protein no other row exceeds; it is the
    first row of the table when that row has a mean; and nothing can be
    reported exactly when no row has a mean (an empty table included). *)
Theorem highest_protein_is_maximal (df : DataFrame) (r : resolved)
  (t : list agg_row) :
  avg_macros df r = Ok t ->
  (forall k m,
      highest_protein t = Some (k, m) ->
      (exists a, In a t /\ a_diet a = k /\ a_protein a = Some m)
      /\ forall b m', In b t -> a_protein b = Some m' -> (m' <= m)%Qc)
  /\ (forall a rest m,
        t = a :: rest -> a_protein a = Some m ->
        highest_protein t = Some (a_diet a, m))
  /\ (highest_protein t = None
      <-> forall a, In a t -> a_protein a = None).
Proof.
  intros Havg. split; [| split].
  - intros k m H. unfold highest_protein in H.
    destruct (idxmax_from_spec t None k m H) as ([E | Hsrc] & _ & Hall);
      [discriminate E |].
    split; assumption.
  - intros a rest m -> Ea.
    assert (Hs : StronglySorted
                   (fun x y => desc (a_protein x) (a_protein y)) (a :: rest)).
    { unfold avg_macros in Havg.
      destruct (groupby_mean df (diet_col r) (protein_col r) (carbs_col r)
                  (fat_col r)) as [rows | e]; [| discriminate].
      simpl in Havg. injection Havg as Havg. rewrite <- Havg.
      apply sort_desc_sorted. }
    inversion Hs as [| ? ? _ Hall]; subst.
    unfold highest_protein. simpl. rewrite Ea.
    apply idxmax_from_dominated. now rewrite <- Ea.
  - unfold highest_protein. rewrite idxmax_from_none. tauto.
Qed.

Lemma highest_protein_is_maximal_witness :
  exists t,
    avg_macros Sample.three_rows canonical_names = Ok t
    /\ option_map (fun km => (fst km, this (snd km))) (highest_protein t)
       = Some (VStr "A", (15 # 1)%Q)
    /\ forall a rest m,
         t = a :: rest -> a_protein a = Some m ->
         highest_protein t = Some (a_diet a, m).
Proof.
  eexists. split; [reflexivity |]. split; [vm_compute; reflexivity |].
  exact (proj1 (proj2 (highest_protein_is_maximal
                         Sample.three_rows canonical_names _ eq_refl))).
Defined.

(** ** The selection per diet type, further *)

Section HeadFurther.

Context {A : Type} (key : A -> option value).

Lemma head_exact_count (n : nat) (k : value) (seen : list value)
  (l : list A) :
  length (filter (in_group key k) (GroupBy.head key n seen l))
  = Nat.min (n - seen_count k seen) (length (filter (in_group key k) l)).
Proof.
  revert seen. induction l as [| y l IH]; intros seen; simpl; [lia |].
  unfold in_group at 2. destruct (key y) as [k' |] eqn:Ek; [| apply IH].
  fold (seen_count k' seen).
  specialize (IH (k' :: seen)). rewrite seen_count_cons in IH.
  rewrite (value_eqb_sym k k') in IH.
  destruct (seen_count k' seen <? n)%nat eqn:Hlt.
  - apply Nat.ltb_lt in Hlt. simpl. unfold in_group at 1. rewrite Ek.
    destruct (value_eqb k' k) eqn:E; simpl.
    + apply value_eqb_eq in E. subst k'. lia.
    + lia.
  - apply Nat.ltb_ge in Hlt.
    destruct (value_eqb k' k) eqn:E; simpl.
    + apply value_eqb_eq in E. subst k'. lia.
    + lia.
Qed.

Lemma head_sorted (R : A -> A -> Prop) (n : nat) (seen : list value)
  (l : list A) :
  StronglySorted R l -> StronglySorted R (GroupBy.head key n seen l).
Proof.
  intros Hs. revert seen.
  induction Hs as [| y l Hs IH Hy]; intros seen; simpl; [constructor |].
  destruct (key y) as [k |]; [| apply IH].
  destruct (length (filter (value_eqb k) seen) <? n)%nat; [| apply IH].
  constructor; [apply IH |].
  rewrite Forall_forall in *. intros x Hx.
  apply Hy. now apply head_In in Hx as [Hx _].
Qed.

Lemma head_NoDup_map {B : Type} (f : A -> B) (n : nat) (seen : list value)
  (l : list A) :
  NoDup (map f l) -> NoDup (map f (GroupBy.head key n seen l)).
Proof.
  revert seen. induction l as [| y l IH]; intros seen Hnd; simpl;
    [constructor |].
  simpl in Hnd. inversion Hnd as [| ? ? Hy Hl]; subst.
  destruct (key y) as [k |]; [| now apply IH].
  destruct (length (filter (value_eqb k) seen) <? n)%nat; [| now apply IH].
  simpl. constructor; [| now apply IH].
  intros Hin. apply Hy.
  apply in_map_iff in Hin as [x [Hfx Hx]].
  apply head_In in Hx as [Hx _].
  apply in_map_iff. now exists x.
Qed.

End HeadFurther.

Section RowFacts.

Lemma filter_length_perm {A : Type} (f : A -> bool) (l l' : list A) :
  Permutation l l' -> length (filter f l) = length (filter f l').
Proof.
  induction 1 as [| x l l' _ IH | x y l | l l' l'' _ IH1 _ IH2]; simpl.
  - reflexivity.
  - destruct (f x); simpl; congruence.
  - destruct (f x), (f y); reflexivity.
  - congruence.
Qed.

Lemma rows_of_idx (ds rs cs : list (option value))
  (ps cbs fs : list (option Qc)) :
  map idx (rows_of ds rs cs ps cbs fs) = seq 0 (length ds).
Proof. unfold rows_of. rewrite map_map. simpl. apply map_id. Qed.

Lemma records_idx (df : DataFrame) (r : resolved) (rows : list row) :
  records df r = Ok rows -> NoDup (map idx rows).
Proof.
  unfold records.
  destruct (key_col df (diet_col r)) as [ds |]; [| discriminate].
  destruct (key_col df (recipe_col r)) as [rs |]; [| discriminate].
  destruct (key_col df (cuisine_col r)) as [cs |]; [| discriminate].
  destruct (num_col df (protein_col r)) as [ps |]; [| discriminate].
  destruct (num_col df (carbs_col r)) as [cbs |]; [| discriminate].
  destruct (num_col df (fat_col r)) as [fs |]; [| discriminate].
  simpl. intros [= <-]. rewrite rows_of_idx. apply seq_NoDup.
Qed.

End RowFacts.

(** X7: for each diet type the selection returns exactly five records
    when the table has five or more of that type, and all of them when it
    has fewer; a record without diet type is never returned. *)
Theorem top5_takes_five_or_all (df : DataFrame) (r : resolved)
  (rows : list row) :
  records df r = Ok rows ->
  exists top,
    top5_by_diet df r = Ok top
    /\ (forall k,
          length (filter (of_diet k) top)
          = Nat.min 5 (length (filter (of_diet k) rows)))
    /\ forall x, In x top -> r_diet x <> None.
Proof.
  intros Hrows. exists (top5_of rows). split; [| split].
  - unfold top5_by_diet. now rewrite Hrows.
  - intros k. unfold top5_of.
    pose proof (head_exact_count r_diet 5 k []
                  (Sort.sort_desc r_protein rows)) as H.
    change (5 - seen_count k [])%nat with 5%nat in H.
    rewrite (filter_length_perm (in_group r_diet k) _ _
               (sort_desc_perm r_protein rows)) in H.
    exact H.
  - intros x Hx. unfold top5_of in Hx. now apply head_In in Hx as [_ Hx].
Qed.

Lemma top5_takes_five_or_all_witness :
  exists rows,
    records SampleTop.eight_rows canonical_names = Ok rows
    /\ exists top,
         top5_by_diet SampleTop.eight_rows canonical_names = Ok top
         /\ (forall k,
               length (filter (of_diet k) top)
               = Nat.min 5 (length (filter (of_diet k) rows)))
         /\ forall x, In x top -> r_diet x <> None.
Proof.
  eexists. split; [reflexivity |].
  apply top5_takes_five_or_all. reflexivity.
Defined.

(** X8: the selection lists its records in descending order of protein,
    missing protein last, and lists no record of the table twice. *)
Theorem top5_descending_without_repeats (df : DataFrame) (r : resolved)
  (rows : list row) :
  records df r = Ok rows ->
  exists top,
    top5_by_diet df r = Ok top
    /\ StronglySorted (fun a b => desc (r_protein a) (r_protein b)) top
    /\ NoDup (map idx top).
Proof.
  intros Hrows. exists (top5_of rows). split; [| split].
  - unfold top5_by_diet. now rewrite Hrows.
  - unfold top5_of. apply head_sorted, sort_desc_sorted.
  - unfold top5_of. apply head_NoDup_map.
    apply (Permutation_NoDup
             (Permutation_map idx
                (Permutation_sym (sort_desc_perm r_protein rows)))).
    now apply records_idx with df r.
Qed.

Lemma top5_descending_without_repeats_witness :
  exists top,
    top5_by_diet SampleTop.eight_rows canonical_names = Ok top
    /\ StronglySorted (fun a b => desc (r_protein a) (r_protein b)) top
    /\ NoDup (map idx top).
Proof.
  apply (top5_descending_without_repeats
           SampleTop.eight_rows canonical_names
           (rows_of
              (cells (ObjCol [Some "A"; Some "A"; Some "A"; Some "B";
                              Some "A"; Some "A"; Some "A"; Some "A"]))
              (cells (ObjCol [Some "r0"; Some "r1"; Some "r2"; Some "r3";
                              Some "r4"; Some "r5"; Some "r6"; Some "r7"]))
              (cells (ObjCol [Some "x"; Some "x"; Some "x"; Some "x";
                              Some "x"; Some "x"; Some "x"; Some "x"]))
              [Sample.n 1; Sample.n 2; Sample.n 3; Sample.n 9;
               Sample.n 4; Sample.n 5; Sample.n 6; Sample.n 7]
              [Sample.n 1; Sample.n 1; Sample.n 1; Sample.n 1;
               Sample.n 1; Sample.n 1; Sample.n 1; Sample.n 1]
              [Sample.n 1; Sample.n 1; Sample.n 1; Sample.n 1;
               Sample.n 1; Sample.n 1; Sample.n 1; Sample.n 1])).
  reflexivity.
Defined.

(** ** Groups partition the keyed rows *)

Section Partition.

Context {A : Type} (key : A -> option value).

Lemma flat_map_ext_in {B : Type} (f g : B -> list A) (l : list B) :
  (forall b, In b l -> f b = g b) -> flat_map f l = flat_map g l.
Proof.
  induction l as [| b l IH]; intros H; simpl; [reflexivity |].
  rewrite (H b (or_introl eq_refl)). f_equal. apply IH.
  intros c Hc. apply H. now right.
Qed.

Lemma flat_map_add (x : A) (k0 : value) (F : value -> list A)
  (ks : list value) :
  NoDup ks -> In k0 ks ->
  Permutation
    (flat_map (fun k => if value_eqb k0 k then x :: F k else F k) ks)
    (x :: flat_map F ks).
Proof.
  induction ks as [| k ks IH]; intros Hnd Hin; [destruct Hin |].
  inversion Hnd as [| ? ? Hk Hks]; subst. simpl.
  destruct (value_eqb k0 k) eqn:E.
  - apply value_eqb_eq in E. subst k0. simpl. constructor.
    apply Permutation_app_head.
    rewrite (flat_map_ext_in _ F ks); [reflexivity |].
    intros k' Hk'. destruct (value_eqb k k') eqn:E'; [| reflexivity].
    apply value_eqb_eq in E'. congruence.
  - destruct Hin as [-> | Hin]; [now rewrite value_eqb_refl in E |].
    rewrite (IH Hks Hin). symmetry. apply Permutation_middle.
Qed.

Lemma flat_map_empty (ks : list value) :
  flat_map (fun _ : value => @nil A) ks = [].
Proof. induction ks; simpl; auto. Qed.

Lemma groups_cover (ks : list value) (l : list A) :
  NoDup ks ->
  (forall x k, In x l -> key x = Some k -> In k ks) ->
  Permutation (flat_map (fun k => filter (in_group key k) l) ks)
              (filter (keyed key) l).
Proof.
  intros Hnd. induction l as [| x l IH]; intros Hcov.
  - simpl. now rewrite flat_map_empty.
  - assert (Hcov' : forall y k, In y l -> key y = Some k -> In k ks)
      by (intros y k Hy; apply Hcov; now right).
    destruct (key x) as [k0 |] eqn:Ek.
    + rewrite (flat_map_ext
                 (fun k => filter (in_group key k) (x :: l))
                 (fun k => if value_eqb k0 k
                           then x :: filter (in_group key k) l
                           else filter (in_group key k) l)).
      2: { intros k. simpl. unfold in_group at 1. now rewrite Ek. }
      simpl. unfold keyed at 1. rewrite Ek. simpl.
      rewrite <- (IH Hcov').
      apply flat_map_add; [assumption |].
      apply (Hcov x k0); [now left | assumption].
    + rewrite (flat_map_ext
                 (fun k => filter (in_group key k) (x :: l))
                 (fun k => filter (in_group key k) l)).
      2: { intros k. simpl. unfold in_group at 1. now rewrite Ek. }
      simpl. unfold keyed at 1. rewrite Ek. simpl. now apply IH.
Qed.

(** The blocks of an iteration hold, between them, the keyed rows. *)
Lemma blocks_partition (t : list A) :
  Permutation (concat (map snd (blocks key t))) (filter (keyed key) t).
Proof.
  unfold blocks. rewrite map_map. simpl. rewrite <- flat_map_concat_map.
  apply groups_cover; [apply keys_NoDup |].
  intros x k Hx Hk. apply keys_In. rewrite <- Hk. now apply in_map.
Qed.

Lemma blocks_keys (t : list A) :
  map fst (blocks key t) = GroupBy.keys (map key t).
Proof. unfold blocks. rewrite map_map. simpl. apply map_id. Qed.

Lemma blocks_members (t : list A) (k : value) (b : list A) :
  In (k, b) (blocks key t) ->
  b = filter (in_group key k) t /\ b <> []
  /\ forall x, In x b -> In x t /\ key x = Some k.
Proof.
  unfold blocks. intros Hin.
  apply in_map_iff in Hin as [k' [[= -> <-] Hk]].
  split; [reflexivity |]. split.
  - apply keys_In in Hk. apply in_map_iff in Hk as [x [Hkx Hx]].
    intros E.
    assert (Hf : In x (filter (in_group key k) t)).
    { apply filter_In. split; [assumption |].
      unfold in_group. rewrite Hkx. apply value_eqb_refl. }
    rewrite E in Hf. destruct Hf.
  - intros x Hx. apply filter_In in Hx as [Hx Hg]. split; [assumption |].
    unfold in_group in Hg. destruct (key x) as [k' |]; [| discriminate].
    apply value_eqb_eq in Hg. now subst.
Qed.

Lemma filter_all {B : Type} (f : B -> bool) (l : list B) :
  (forall x, In x l -> f x = true) -> filter f l = l.
Proof.
  induction l as [| x l IH]; intros H; simpl; [reflexivity |].
  rewrite (H x (or_introl eq_refl)). f_equal. apply IH.
  intros y Hy. apply H. now right.
Qed.

End Partition.

(** X9: the loop that prints the selection per diet type visits the diet
    types in strictly ascending order; each block is non-empty, holds at
    most five records, all of the block's diet type; and the blocks hold,
    between them, exactly the records of the selection. *)
Theorem top5_blocks_partition (df : DataFrame) (r : resolved)
  (top : list row) :
  top5_by_diet df r = Ok top ->
  StronglySorted value_lt (map fst (blocks r_diet top))
  /\ (forall k b,
        In (k, b) (blocks r_diet top) ->
        b <> [] /\ (length b <= 5)%nat
        /\ forall x, In x b -> In x top /\ r_diet x = Some k)
  /\ Permutation (concat (map snd (blocks r_diet top))) top.
Proof.
  intros Htop.
  assert (Hrows : exists rows, top = top5_of rows).
  { unfold top5_by_diet in Htop.
    destruct (records df r) as [rows |]; [| discriminate].
    injection Htop as <-. now exists rows. }
  destruct Hrows as [rows ->].
  split; [| split].
  - rewrite blocks_keys. apply keys_sorted.
  - intros k b Hin.
    destruct (blocks_members r_diet (top5_of rows) k b Hin) as (Hb & Hne & Hall).
    split; [assumption |]. split; [| assumption].
    subst b. unfold top5_of.
    pose proof (head_count r_diet 5 k [] (Sort.sort_desc r_protein rows)) as H.
    change (5 - seen_count k [])%nat with 5%nat in H. exact H.
  - rewrite blocks_partition. rewrite filter_all; [reflexivity |].
    intros x Hx. unfold top5_of in Hx. apply head_In in Hx as [_ Hx].
    unfold keyed. now destruct (r_diet x).
Qed.

Lemma top5_blocks_partition_witness :
  exists top,
    top5_by_diet SampleTop.eight_rows canonical_names = Ok top
    /\ map fst (blocks r_diet top) = [VStr "A"; VStr "B"]
    /\ Permutation (concat (map snd (blocks r_diet top))) top.
Proof.
  eexists. split; [reflexivity |]. split; [reflexivity |].
  exact (proj2 (proj2 (top5_blocks_partition
                         SampleTop.eight_rows canonical_names _ eq_refl))).
Defined.

(** ** The most common cuisines per diet type *)

Section CuisineFacts.

Import Cuisines.

Lemma pair_compare_eq (p q : value * value) : pair_compare p q = Eq <-> p = q.
Proof.
  destruct p as [a b], q as [c d]. unfold pair_compare. simpl.
  destruct (value_compare a c) eqn:E.
  - apply value_compare_eq in E. subst c. rewrite value_compare_eq.
    split; [now intros -> | now intros [= ->]].
  - split; [discriminate |]. intros [= -> ->].
    rewrite value_compare_refl in E. discriminate.
  - split; [discriminate |]. intros [= -> ->].
    rewrite value_compare_refl in E. discriminate.
Qed.

Lemma pair_compare_antisym (p q : value * value) :
  pair_compare q p = CompOpp (pair_compare p q).
Proof.
  destruct p as [a b], q as [c d]. unfold pair_compare. simpl.
  rewrite (value_compare_antisym a c).
  destruct (value_compare a c); simpl; try reflexivity.
  apply value_compare_antisym.
Qed.

Lemma pair_lt_trans (p q s : value * value) :
  pair_lt p q -> pair_lt q s -> pair_lt p s.
Proof.
  destruct p as [a b], q as [c d], s as [e f].
  unfold pair_lt, pair_compare. simpl.
  destruct (value_compare a c) eqn:Eac; try discriminate.
  - apply value_compare_eq in Eac. subst c.
    destruct (value_compare a e) eqn:Eae; try discriminate; [| reflexivity].
    intros H1 H2. exact (value_lt_trans b d f H1 H2).
  - intros _. destruct (value_compare c e) eqn:Ece; try discriminate.
    + apply value_compare_eq in Ece. subst e. now rewrite Eac.
    + intros _. now rewrite (value_lt_trans a c e Eac Ece).
Qed.

Lemma pair_eqb_eq (p q : value * value) : pair_eqb p q = true <-> p = q.
Proof.
  unfold pair_eqb. rewrite <- pair_compare_eq.
  destruct (pair_compare p q); split; congruence.
Qed.

Lemma insert_pair_In (p x : value * value) (l : list (value * value)) :
  In x (insert_pair p l) <-> x = p \/ In x l.
Proof.
  induction l as [| h t IH]; simpl.
  - intuition.
  - destruct (pair_compare p h) eqn:E; simpl.
    + apply pair_compare_eq in E. subst. intuition.
    + intuition.
    + rewrite IH. intuition.
Qed.

Lemma insert_pair_sorted (p : value * value) (l : list (value * value)) :
  StronglySorted pair_lt l -> StronglySorted pair_lt (insert_pair p l).
Proof.
  induction l as [| h t IH]; simpl; intros Hs.
  - constructor; constructor.
  - inversion Hs as [| ? ? Ht Hh]; subst.
    destruct (pair_compare p h) eqn:E.
    + assumption.
    + constructor; [assumption |]. constructor; [exact E |].
      eapply Forall_impl; [| exact Hh].
      intros z Hz. now apply pair_lt_trans with h.
    + constructor; [now apply IH |].
      apply Forall_forall. intros z Hz.
      apply insert_pair_In in Hz. destruct Hz as [-> | Hz].
      * unfold pair_lt. rewrite pair_compare_antisym, E. reflexivity.
      * rewrite Forall_forall in Hh. now apply Hh.
Qed.

Lemma pair_keys_In (l : list (value * value)) (p : value * value) :
  In p (pair_keys l) <-> In p l.
Proof.
  unfold pair_keys. induction l as [| x l IH]; simpl; [tauto |].
  rewrite insert_pair_In, IH. intuition.
Qed.

Lemma pair_keys_NoDup (l : list (value * value)) : NoDup (pair_keys l).
Proof.
  assert (Hs : StronglySorted pair_lt (pair_keys l)).
  { unfold pair_keys. induction l as [| x l IH]; simpl;
      [constructor | now apply insert_pair_sorted]. }
  induction Hs as [| x t Hs IH Hx]; constructor; [| assumption].
  intros Hin. rewrite Forall_forall in Hx. specialize (Hx x Hin).
  unfold pair_lt in Hx.
  rewrite (proj2 (pair_compare_eq x x) eq_refl) in Hx. discriminate.
Qed.

Lemma present_pairs_In (rows : list row) (d c : value) :
  In (d, c) (present_pairs rows)
  <-> exists x, In x rows /\ r_diet x = Some d /\ r_cuisine x = Some c.
Proof.
  unfold present_pairs. rewrite dropna_In, in_map_iff. split.
  - intros [x [Hx Hin]]. exists x. split; [assumption |].
    destruct (r_diet x), (r_cuisine x); try discriminate.
    now injection Hx as -> ->.
  - intros [x (Hin & Hd & Hc)]. exists x. split; [| assumption].
    now rewrite Hd, Hc.
Qed.

Lemma size_rows (rows : list row) (d c : value) :
  size (present_pairs rows) (d, c)
  = length (filter (of_diet_and_cuisine d c) rows).
Proof.
  unfold size, present_pairs, of_diet_and_cuisine, in_group.
  induction rows as [| x rows IH]; simpl; [reflexivity |].
  destruct (r_diet x) as [d' |], (r_cuisine x) as [c' |]; simpl;
    try exact IH.
  - assert (E : pair_eqb (d, c) (d', c') = value_eqb d' d && value_eqb c' c).
    { destruct (pair_eqb (d, c) (d', c')) eqn:E1.
      - apply pair_eqb_eq in E1. injection E1 as -> ->.
        now rewrite !value_eqb_refl.
      - destruct (value_eqb d' d) eqn:E2; [| reflexivity].
        destruct (value_eqb c' c) eqn:E3; [| reflexivity].
        apply value_eqb_eq in E2, E3. subst.
        now rewrite (proj2 (pair_eqb_eq (d, c) (d, c)) eq_refl) in E1. }
    rewrite E. destruct (value_eqb d' d && value_eqb c' c); simpl;
      now rewrite IH.
  - destruct (value_eqb d' d); exact IH.
Qed.

Lemma of_nat_le (a b : nat) :
  (Num.of_nat a <= Num.of_nat b)%Qc <-> (a <= b)%nat.
Proof.
  unfold Num.of_nat, Qcle, Q2Qc. cbn [this].
  rewrite !Qred_correct, <- Zle_Qle. lia.
Qed.

End CuisineFacts.

(** X10: every row of the cuisine table counts the records that carry its
    diet type and cuisine, at least one; each pair found in the records
    has its row, and only one; the top list keeps at most three cuisines
    per diet type, and none with a lower count than a cuisine of the same
    diet type it leaves out. *)
Theorem top_cuisines_most_common (rows : list row) :
  (forall e,
      In e (common_cuisines rows) ->
      cc_count e
      = length (filter (of_diet_and_cuisine (cc_diet e) (cc_cuisine e)) rows)
      /\ (1 <= cc_count e)%nat)
  /\ (forall x d c,
        In x rows -> r_diet x = Some d -> r_cuisine x = Some c ->
        exists e,
          In e (common_cuisines rows) /\ cc_diet e = d /\ cc_cuisine e = c)
  /\ NoDup (map (fun e => (cc_diet e, cc_cuisine e)) (common_cuisines rows))
  /\ (forall k,
        (length (filter (in_group (fun e => Some (cc_diet e)) k)
                        (top_cuisine_per_diet rows)) <= 3)%nat)
  /\ (forall e, In e (top_cuisine_per_diet rows) ->
                In e (common_cuisines rows))
  /\ (forall e e',
        In e (top_cuisine_per_diet rows) ->
        In e' (common_cuisines rows) ->
        ~ In e' (top_cuisine_per_diet rows) ->
        cc_diet e = cc_diet e' ->
        (cc_count e' <= cc_count e)%nat).
Proof.
  pose proof (sort_desc_perm (fun c => Some (Num.of_nat (cc_count c)))
                (cuisine_sizes rows)) as Hperm.
  fold (common_cuisines rows) in Hperm.
  split; [| split; [| split; [| split; [| split]]]].
  - intros e He. apply (Permutation_in _ Hperm) in He.
    unfold cuisine_sizes in He. apply in_map_iff in He as [[d c] [<- Hp]].
    simpl. rewrite size_rows. split; [reflexivity |].
    apply (proj1 (pair_keys_In _ _)) in Hp.
    apply (proj1 (present_pairs_In _ _ _)) in Hp.
    destruct Hp as [x (Hx & Hd & Hc)].
    assert (Hf : In x (filter (of_diet_and_cuisine d c) rows)).
    { apply filter_In. split; [assumption |].
      unfold of_diet_and_cuisine, in_group. rewrite Hd, Hc.
      now rewrite !value_eqb_refl. }
    destruct (filter (of_diet_and_cuisine d c) rows); [destruct Hf | simpl; lia].
  - intros x d c Hx Hd Hc.
    exists (mkCount d c (Cuisines.size (Cuisines.present_pairs rows) (d, c))).
    split; [| split; reflexivity].
    apply (Permutation_in _ (Permutation_sym Hperm)).
    unfold cuisine_sizes. apply in_map_iff. exists (d, c). split; [reflexivity |].
    apply pair_keys_In, present_pairs_In. now exists x.
  - apply (Permutation_NoDup
             (Permutation_map (fun e => (cc_diet e, cc_cuisine e))
                (Permutation_sym Hperm))).
    unfold cuisine_sizes. rewrite map_map. simpl.
    rewrite (map_ext _ (fun p => p)) by (intros [d c]; reflexivity).
    rewrite map_id. apply pair_keys_NoDup.
  - intros k. unfold top_cuisine_per_diet.
    pose proof (head_count (fun e => Some (cc_diet e)) 3 k []
                  (common_cuisines rows)) as H.
    change (3 - seen_count k [])%nat with 3%nat in H. exact H.
  - intros e He. unfold top_cuisine_per_diet in He.
    now apply head_In in He as [He _].
  - intros e e' He He' Hout Hd.
    apply of_nat_le.
    apply (head_before_excluded (fun c => Some (cc_diet c))
             (fun a b => desc (Some (Num.of_nat (cc_count a)))
                              (Some (Num.of_nat (cc_count b))))
             3 (cc_diet e) [] (common_cuisines rows) e e'); auto.
    + unfold common_cuisines.
      apply (sort_desc_sorted (fun c => Some (Num.of_nat (cc_count c)))).
    + now rewrite Hd.
Qed.

(** The cuisine tables of a sample: diet A keeps its three most common
    cuisines and drops the fourth. *)
Example top_cuisines_sample :
  SampleCuisine.show (top_cuisine_per_diet SampleCuisine.rows)
  = [ (VStr "A", VStr "thai", 4%nat); (VStr "A", VStr "greek", 3%nat);
      (VStr "A", VStr "cuban", 2%nat); (VStr "B", VStr "thai", 1%nat) ].
Proof. reflexivity. Qed.

(** ** The remote job on every path *)

Section JobPaths.

(** What [ensure_container] leaves: one request more, one line more,
    the disk and the blobs as they were. *)
Lemma ensure_container_effect (w : cloud) :
  fst (ensure_container w) = Ok tt
  /\ c_requests (snd (ensure_container w)) = S (c_requests w)
  /\ c_outages (snd (ensure_container w)) = c_outages w
  /\ c_blobs (snd (ensure_container w)) = c_blobs w
  /\ c_disk_ok (snd (ensure_container w)) = c_disk_ok w
  /\ c_files (snd (ensure_container w)) = c_files w.
Proof.
  unfold ensure_container, try_except, bind, create_container, say.
  destruct (reachable w); [| repeat split].
  destruct (existsb (String.eqb container_name) (c_containers w));
    repeat split.
Qed.

(** The rest of the job sends one request from any world. *)
Lemma fetch_and_summarize_effect (w : cloud) :
  c_requests (snd (fetch_and_summarize w)) = S (c_requests w).
Proof.
  unfold fetch_and_summarize, bind, download_csv, lift, dump_json, ret.
  destruct (reachable w); [| reflexivity].
  destruct (existsb (String.eqb container_name) (c_containers w));
    [| reflexivity].
  destruct (find_blob (c_blobs w) container_name blob_name) as [df |];
    [| reflexivity].
  destruct (remote_avg_macros df) as [t | e]; [| reflexivity].
  cbn [c_disk_ok sent]. now destruct (c_disk_ok w).
Qed.

(** The job is the straight-line script over the two modelled calls. *)
Lemma job_with_modelled_calls :
  process_nutritional_data_from_azurite
  = job_with (create_container container_name)
             (download_csv container_name blob_name).
Proof. reflexivity. Qed.

Lemma say_off_disk (s : string) : off_disk (say s).
Proof. intros w. reflexivity. Qed.






End JobPaths.

(** X11: on every path the job calls the service exactly twice, once to
    create the container and once to download: it never retries a call
    and never gives the download up after the container set-up. *)
Theorem job_sends_two_requests (w : cloud) :
  c_requests (snd (process_nutritional_data_from_azurite w))
  = S (S (c_requests w)).
Proof.
  unfold process_nutritional_data_from_azurite, bind.
  destruct (ensure_container_effect w) as (Hok & Hreq & _).
  destruct (ensure_container w) as [res w1]. simpl in Hok, Hreq. subst res.
  now rewrite (fetch_and_summarize_effect w1), Hreq.
Qed.



(** X13: a dataset without a column spelled "Diet_type" makes the job
    raise [KeyError] on that name after the download and write nothing,
    although the pipeline accepts other spellings of the header. *)
Theorem job_needs_the_canonical_header (w : cloud) (df : DataFrame) :
  reachable w = true -> container_exists w -> download_ready w df ->
  ~ In "Diet_type" (columns df) ->
  remote_avg_macros df = Raise (KeyError "Diet_type")
  /\ fst (process_nutritional_data_from_azurite w)
     = Raise (KeyError "Diet_type")
  /\ c_files (snd (process_nutritional_data_from_azurite w)) = c_files w.
Proof.
  intros Hr Hc (Hnext & Hblob & _) Hno.
  assert (Hraise : remote_avg_macros df = Raise (KeyError "Diet_type")).
  { unfold remote_avg_macros, groupby_mean, key_col.
    now rewrite (proj2 (get_col_None df "Diet_type") Hno). }
  split; [exact Hraise |].
  unfold process_nutritional_data_from_azurite, bind.
  rewrite (ensure_existing_container w Hr Hc).
  unfold fetch_and_summarize, bind, download_csv, lift.
  unfold reachable in *. unfold container_exists in Hc.
  cbn [c_requests c_outages c_containers c_blobs c_disk_ok c_files c_out sent]
    in *.
  rewrite Hnext, Hc, Hblob, Hraise. split; reflexivity.
Qed.

Lemma job_needs_the_canonical_header_witness :
  let w := SampleCloud.provisioned SampleHeader.spaced [] in
  (exists r, resolve SampleHeader.spaced = Some r /\ diet_col r = "Diet Type")
  /\ fst (process_nutritional_data_from_azurite w)
     = Raise (KeyError "Diet_type")
  /\ c_files (snd (process_nutritional_data_from_azurite w)) = c_files w.
Proof.
  intros w. split; [eexists; split; reflexivity |].
  apply (job_needs_the_canonical_header w SampleHeader.spaced).
  - reflexivity.
  - reflexivity.
  - repeat split.
  - simpl. intuition discriminate.
Defined.



(** ** Cleaning and aggregation together *)

Section CleanThenAggregate.









End CleanThenAggregate.



(** ** Groups and rows *)

Section GroupsAndRows.

Context {A : Type}.

Lemma map_flat_map {B C : Type} (f : B -> C) (g : value -> list B)
  (ks : list value) :
  map f (flat_map g ks) = flat_map (fun k => map f (g k)) ks.
Proof.
  induction ks as [| k ks IH]; simpl; [reflexivity |].
  now rewrite map_app, IH.
Qed.

Lemma select_cover (ks : list (option value)) (xs : list A) :
  Permutation
    (flat_map (fun k => GroupBy.select ks xs k) (GroupBy.keys ks))
    (map snd (filter (keyed fst) (combine ks xs))).
Proof.
  rewrite (flat_map_ext
             (fun k => GroupBy.select ks xs k)
             (fun k => map snd (filter (in_group fst k) (combine ks xs))))
    by (intros k; apply select_members).
  rewrite <- map_flat_map. apply Permutation_map.
  apply groups_cover; [apply keys_NoDup |].
  intros [k' y] k Hin Hk. simpl in Hk. subst k'.
  apply keys_In. now apply in_combine_l in Hin.
Qed.

End GroupsAndRows.

(** X16: the groups that [groupby] forms hold, between them, exactly the
    cells of the rows that have a key, each once; so the group sizes add
    up to the number of keyed rows. *)
Theorem groups_hold_keyed_rows_once {A : Type} (ks : list (option value))
  (xs : list A) :
  Permutation
    (flat_map (fun k => GroupBy.select ks xs k) (GroupBy.keys ks))
    (map snd (filter (keyed fst) (combine ks xs)))
  /\ list_sum (map (fun k => length (GroupBy.select ks xs k))
                   (GroupBy.keys ks))
     = length (filter (keyed fst) (combine ks xs)).
Proof.
  pose proof (select_cover ks xs) as Hcov.
  split; [exact Hcov |].
  transitivity
    (length (flat_map (fun k => GroupBy.select ks xs k) (GroupBy.keys ks))).
  - symmetry. apply (length_flat_map (fun k => GroupBy.select ks xs k)).
  - rewrite (Permutation_length Hcov). apply length_map.
Qed.

(** X17: each record of the results file carries a diet type of the
    downloaded dataset and, for each macro, the arithmetic mean of the
    values present in that diet type's rows ([NaN] when there is none);
    the values are taken as downloaded, without cleaning. *)
Theorem job_records_hold_group_means (w : cloud) (df : DataFrame)
  (ks : list (option value)) (ps cs fs : list (option Qc)) :
  reachable w = true -> container_exists w ->
  download_ready w df -> remote_columns df ks ps cs fs ->
  written_array (snd (process_nutritional_data_from_azurite w))
  = Some (map (fun k =>
                 json_record k (group_mean ks ps k) (group_mean ks cs k)
                             (group_mean ks fs k))
              (GroupBy.keys ks)).
Proof.
  intros Hr Hc Hready Hcols.
  rewrite (process_existing_container w df ks ps cs fs Hr Hc Hready Hcols).
  unfold written_array. cbn [snd c_files].
  rewrite String.eqb_refl. f_equal. unfold to_records, mean_rows. rewrite map_map.
  apply map_ext. intros k. unfold json_record, group_mean. simpl.
  now rewrite !mean_arithmetic, !select_members.
Qed.

Lemma job_records_hold_group_means_witness :
  written_array
    (snd (process_nutritional_data_from_azurite
            (SampleCloud.provisioned Sample.with_gap [])))
  = Some (map (fun k =>
                 json_record k
                   (group_mean
                      [Some (VStr "A"); Some (VStr "A"); Some (VStr "B")]
                      [Sample.n 10; None; Sample.n 30] k)
                   (group_mean
                      [Some (VStr "A"); Some (VStr "A"); Some (VStr "B")]
                      [Sample.n 5; Sample.n 0; Sample.n 4] k)
                   (group_mean
                      [Some (VStr "A"); Some (VStr "A"); Some (VStr "B")]
                      [Sample.n 1; Sample.n 2; Sample.n 3] k))
              (GroupBy.keys
                 [Some (VStr "A"); Some (VStr "A"); Some (VStr "B")])).
Proof.
  apply (job_records_hold_group_means
           (SampleCloud.provisioned Sample.with_gap []) Sample.with_gap);
    repeat split.
Defined.

Lemma top_cuisines_most_common_witness :
  let e := mkCount (VStr "A") (VStr "thai") 4 in
  In e (common_cuisines SampleCuisine.rows)
  /\ cc_count e
     = length (filter (of_diet_and_cuisine (cc_diet e) (cc_cuisine e))
                      SampleCuisine.rows)
  /\ (1 <= cc_count e)%nat.
Proof.
  intros e.
  assert (He : In e (common_cuisines SampleCuisine.rows))
    by (left; reflexivity).
  split; [exact He |].
  exact (proj1 (top_cuisines_most_common SampleCuisine.rows) e He).
Defined.
